(** * metric-tools: hours logged to HTCONDOR Improvement issues

    A shallow embedding of [m1-3-new-features.py] and the properties of its
    date window, work-log aggregation and report.

    Conventions of the embedding:
    - a Python [str] is a [string]; each [ascii] stands for the code point
      of the same number (U+0000 .. U+00FF);
    - a Python [float] is a binary64 [float] of the kernel, a Python [int]
      is a [Z];
    - [print] and the calls to Jira are recorded, in order, in a trace of
      events; an exception leaving a function is a value of type [exn]. *)

From Stdlib Require Import ZArith List String Ascii Bool Lia Floats Permutation.

Set Warnings "-inexact-float".
Import ListNotations.

Local Open Scope string_scope.
Local Open Scope Z_scope.

(** ** Exceptions, events and the monad of the script *)

Inductive exn : Type :=
| SystemExit (code : Z)
| ValueError
| TypeError
| KeyError (key : string)
| ZeroDivisionError
| OverflowError
| UnboundLocalError.

(** [SystemExit] derives from [BaseException] only: [except Exception]
    and does not catch it. *)
Definition is_Exception (e : exn) : bool :=
  match e with
  | SystemExit _ => false
  | _ => true
  end.

(** ** Characters and the regular expressions of [re] and [_strptime] *)

Module Re.

Definition code (c : ascii) : N := N_of_ascii c.

(** Character classes: [\d] (on the code points below U+0100 it is
    [[0-9]]), [[a-b]], [\s], a literal character of a pattern compiled
    with [IGNORECASE], and a literal character of a pattern compiled
    without flags. *)
Inductive cls : Type :=
| Digit
| Range (a b : ascii)
| Space
| Lit (a : ascii)
| Exact (a : ascii).

Definition is_digit (c : ascii) : bool :=
  ((48 <=? code c) && (code c <=? 57))%N.

Definition range (a b : ascii) (c : ascii) : bool :=
  ((code a <=? code c) && (code c <=? code b))%N.

(** [\s] on the code points below U+0100: tab to carriage return, the
    four separators U+001C..U+001F, space, U+0085 and U+00A0. *)
Definition is_space (c : ascii) : bool :=
  (((9 <=? code c) && (code c <=? 13)) || ((28 <=? code c) && (code c <=? 32))
   || (code c =? 133) || (code c =? 160))%N.

Definition lower (c : ascii) : ascii :=
  if ((65 <=? code c) && (code c <=? 90))%N then ascii_of_N (code c + 32) else c.

Definition lit (a : ascii) (c : ascii) : bool :=
  (code (lower a) =? code (lower c))%N.

Definition exact (a : ascii) (c : ascii) : bool := (code a =? code c)%N.

Definition mem (p : cls) (c : ascii) : bool :=
  match p with
  | Digit => is_digit c
  | Range a b => range a b c
  | Space => is_space c
  | Lit a => lit a c
  | Exact a => exact a c
  end.

Inductive regex : Type :=
| Eps                                  (* the empty pattern *)
| Cls (p : cls)              (* one character of a class *)
| Cat (r1 r2 : regex)                  (* r1 r2 *)
| Alt (r1 r2 : regex)                  (* r1|r2, the left one first *)
| Plus (p : cls)             (* p+, greedy *)
| Rep (p : cls) (lo hi : nat) (* p{lo,hi}, greedy *)
| Grp (name : ascii) (r : regex).      (* (?P<name>r) *)

Definition captures : Type := list (ascii * string).

Definition orelse {R : Type} (x y : option R) : option R :=
  match x with
  | Some r => Some r
  | None => y
  end.

(** [p*], the longest run first; [k] receives the matched text and the
    rest of the subject. *)
Fixpoint star {R : Type} (p : cls) (s : string)
         (k : string -> string -> option R) : option R :=
  match s with
  | String c s' =>
      if mem p c
      then orelse (star p s' (fun m r => k (String c m) r)) (k "" s)
      else k "" s
  | EmptyString => k "" s
  end.

(** [p{lo,hi}], the longest run first. *)
Fixpoint rep {R : Type} (p : cls) (lo hi : nat) (s : string)
         (k : string -> string -> option R) : option R :=
  let stop := match lo with O => k "" s | S _ => None end in
  match hi with
  | O => stop
  | S hi' =>
      match s with
      | String c s' =>
          if mem p c
          then orelse (rep p (pred lo) hi' s' (fun m r => k (String c m) r)) stop
          else stop
      | EmptyString => stop
      end
  end.

(** The backtracking matcher: [rmatch r s caps k] tries the ways [r]
    matches a prefix of [s] in the order of [re], and returns the first
    for which the continuation [k] succeeds. *)
Fixpoint rmatch {R : Type} (r : regex) (s : string) (caps : captures)
         (k : string -> string -> captures -> option R) : option R :=
  match r with
  | Eps => k "" s caps
  | Cls p =>
      match s with
      | String c s' => if mem p c then k (String c "") s' caps else None
      | EmptyString => None
      end
  | Cat r1 r2 =>
      rmatch r1 s caps (fun m1 s1 c1 =>
        rmatch r2 s1 c1 (fun m2 s2 c2 => k (m1 ++ m2) s2 c2))
  | Alt r1 r2 => orelse (rmatch r1 s caps k) (rmatch r2 s caps k)
  | Plus p =>
      match s with
      | String c s' =>
          if mem p c then star p s' (fun m r => k (String c m) r caps) else None
      | EmptyString => None
      end
  | Rep p lo hi => rep p lo hi s (fun m r => k m r caps)
  | Grp n r' => rmatch r' s caps (fun m s' c' => k m s' ((n, m) :: c'))
  end.

(** [pattern.match(s)]: the groups of the first match at the start of
    [s] and what is left of [s] after it ([s[found.end():]]). *)
Definition re_match (r : regex) (s : string) : option (captures * string) :=
  rmatch r s [] (fun _ rest caps => Some (caps, rest)).

Fixpoint group (n : ascii) (caps : captures) : option string :=
  match caps with
  | [] => None
  | (n', v) :: caps' => if (code n =? code n')%N then Some v else group n caps'
  end.

End Re.

(** ** [datetime.datetime], naive *)

Module DateTime.

Record datetime : Type := mk {
  year : Z; month : Z; day : Z;
  hour : Z; minute : Z; second : Z; microsecond : Z
}.

Definition is_leap (y : Z) : bool :=
  (y mod 4 =? 0) && (negb (y mod 100 =? 0) || (y mod 400 =? 0)).

Definition days_in_month (y m : Z) : Z :=
  match m with
  | 1 | 3 | 5 | 7 | 8 | 10 | 12 => 31
  | 4 | 6 | 9 | 11 => 30
  | 2 => if is_leap y then 29 else 28
  | _ => 0
  end.

(** The checks of [date(year, month, day)]. *)
Definition check_date (y m d : Z) : bool :=
  (1 <=? y) && (y <=? 9999) && (1 <=? m) && (m <=? 12)
  && (1 <=? d) && (d <=? days_in_month y m).

(** The checks of the time fields of [datetime(...)]. *)
Definition check_time (h mi s us : Z) : bool :=
  (0 <=? h) && (h <=? 23) && (0 <=? mi) && (mi <=? 59)
  && (0 <=? s) && (s <=? 59) && (0 <=? us) && (us <=? 999999).

(** [datetime(y, m, d, h, mi, s, us)]; [ValueError] on a field out of
    range. *)
Definition make (y m d h mi s us : Z) : exn + datetime :=
  if check_date y m d && check_time h mi s us
  then inr (mk y m d h mi s us)
  else inl ValueError.

Definition fields (t : datetime) : list Z :=
  [year t; month t; day t; hour t; minute t; second t; microsecond t].

Fixpoint lex (a b : list Z) : comparison :=
  match a, b with
  | [], [] => Eq
  | [], _ :: _ => Lt
  | _ :: _, [] => Gt
  | x :: a', y :: b' =>
      match x ?= y with
      | Eq => lex a' b'
      | c => c
      end
  end.

(** Naive datetimes compare field by field, the year first. *)
Definition compare (a b : datetime) : comparison := lex (fields a) (fields b).

(** [a < b] *)
Definition lt (a b : datetime) : bool :=
  match compare a b with Lt => true | _ => false end.

(** [a > b] *)
Definition gt (a b : datetime) : bool :=
  match compare a b with Gt => true | _ => false end.

End DateTime.

(** ** [datetime.strptime] for the directives the script uses *)

Module Strptime.
Import Re DateTime.

(** The entries of [TimeRE] for [%d %f %H %m %M %S %Y]. *)
Definition digit : regex := Cls Digit.
Definition chr (a : ascii) : regex := Cls (Lit a).
Definition rng (a b : ascii) : regex := Cls (Range a b).

(** [(?P<d>3[0-1]|[1-2]\d|0[1-9]|[1-9]| [1-9])] *)
Definition re_d : regex :=
  Grp "d"%char (Alt (Cat (chr "3"%char) (rng "0"%char "1"%char))
          (Alt (Cat (rng "1"%char "2"%char) digit)
          (Alt (Cat (chr "0"%char) (rng "1"%char "9"%char))
          (Alt (rng "1"%char "9"%char)
               (Cat (chr " "%char) (rng "1"%char "9"%char)))))).

(** [(?P<f>[0-9]{1,6})] *)
Definition re_f : regex := Grp "f"%char (Rep Digit 1 6).

(** [(?P<H>2[0-3]|[0-1]\d|\d)] *)
Definition re_H : regex :=
  Grp "H"%char (Alt (Cat (chr "2"%char) (rng "0"%char "3"%char))
          (Alt (Cat (rng "0"%char "1"%char) digit)
               digit)).

(** [(?P<m>1[0-2]|0[1-9]|[1-9])] *)
Definition re_m : regex :=
  Grp "m"%char (Alt (Cat (chr "1"%char) (rng "0"%char "2"%char))
          (Alt (Cat (chr "0"%char) (rng "1"%char "9"%char))
               (rng "1"%char "9"%char))).

(** [(?P<M>[0-5]\d|\d)] *)
Definition re_M : regex := Grp "M"%char (Alt (Cat (rng "0"%char "5"%char) digit) digit).

(** [(?P<S>6[0-1]|[0-5]\d|\d)] *)
Definition re_S : regex :=
  Grp "S"%char (Alt (Cat (chr "6"%char) (rng "0"%char "1"%char))
          (Alt (Cat (rng "0"%char "5"%char) digit)
               digit)).

(** [(?P<Y>\d\d\d\d)] *)
Definition re_Y : regex := Grp "Y"%char (Cat digit (Cat digit (Cat digit digit))).

Definition directive (d : ascii) : option regex :=
  if (code d =? code "d"%char)%N then Some re_d
  else if (code d =? code "f"%char)%N then Some re_f
  else if (code d =? code "H"%char)%N then Some re_H
  else if (code d =? code "m"%char)%N then Some re_m
  else if (code d =? code "M"%char)%N then Some re_M
  else if (code d =? code "S"%char)%N then Some re_S
  else if (code d =? code "Y"%char)%N then Some re_Y
  else None.

(** Drops the rest of a run of white space of the format. *)
Fixpoint skip_spaces (s : string) : string :=
  match s with
  | String c s' => if is_space c then skip_spaces s' else s
  | EmptyString => s
  end.

(** [TimeRE.pattern] and [compile]: a run of white space of the format
    becomes [\s+], a directive its entry, any other character itself
    (matched without regard to case).  [fuel] bounds the length of the
    format. *)
Fixpoint pattern (fuel : nat) (format : string) : option regex :=
  match fuel with
  | O => None
  | S fuel' =>
      match format with
      | EmptyString => Some Eps
      | String c rest =>
          if is_space c then
            option_map (Cat (Plus Space)) (pattern fuel' (skip_spaces rest))
          else if (code c =? code "%"%char)%N then
            match rest with
            | EmptyString => None
            | String d rest' =>
                match directive d, pattern fuel' rest' with
                | Some r, Some r' => Some (Cat r r')
                | _, _ => None
                end
            end
          else option_map (Cat (Cls (Lit c))) (pattern fuel' rest)
      end
  end.

Definition digit_value (c : ascii) : Z := Z.of_N (code c) - 48.

(** [int(s)] for a string of decimal digits. *)
Definition int (s : string) : Z :=
  fold_left (fun acc c => 10 * acc + digit_value c) (list_ascii_of_string s) 0.

Fixpoint zeros (n : nat) : string :=
  match n with
  | O => ""
  | S n' => String "0"%char (zeros n')
  end.

(** The value of a group, or the default of [_strptime] when the format
    has no such directive. *)
Definition field (n : ascii) (default : Z) (caps : captures) : Z :=
  match group n caps with
  | Some v => int v
  | None => default
  end.

(** [%f]: the digits are padded with zeros on the right to six. *)
Definition fraction (caps : captures) : Z :=
  match group "f"%char caps with
  | Some v => int (v ++ zeros (6 - String.length v))
  | None => 0
  end.

(** [datetime.strptime(data_string, format)]: [ValueError] when the
    format has a bad directive, when the pattern does not match at the
    start of the string, when the match leaves text unconverted and when
    the fields are not a date and a time. *)
Definition strptime (data_string format : string) : exn + datetime :=
  match pattern (S (String.length format)) format with
  | None => inl ValueError
  | Some format_regex =>
      match re_match format_regex data_string with
      | None => inl ValueError
      | Some (found, rest) =>
          match rest with
          | String _ _ => inl ValueError
          | EmptyString =>
              make (field "Y"%char 1900 found) (field "m"%char 1 found) (field "d"%char 1 found)
                   (field "H"%char 0 found) (field "M"%char 0 found) (field "S"%char 0 found)
                   (fraction found)
          end
      end
  end.

End Strptime.

(** ** Python numbers: [int] and [float] *)

Module PyNum.

Inductive num : Type :=
| PyInt (n : Z)
| PyFloat (x : float).

Definition SF_of_Z (n : Z) : spec_float :=
  match n with
  | Z0 => S754_zero false
  | Zpos p => S754_finite false p 0
  | Zneg p => S754_finite true p 0
  end.

(** [float(n)]: the binary64 nearest to [n], ties to even. *)
Definition float_of_Z (n : Z) : float :=
  SF2Prim (binary_normalize prec emax n 0 false).

(** [a / b] on two [int]s, [b] not zero: the binary64 nearest to the
    quotient. *)
Definition int_truediv (a b : Z) : float :=
  SF2Prim (SFdiv prec emax (SF_of_Z a) (SF_of_Z b)).

(** The integer nearest to [n/d] for [0 <= n] and [0 < d], a tie going
    to the even neighbour. *)
Definition round_half_even (n d : Z) : Z :=
  let q := n / d in
  let r := n mod d in
  match 2 * r ?= d with
  | Lt => q
  | Gt => q + 1
  | Eq => if Z.even q then q else q + 1
  end.

(** [round(x, 2)] on a [float]: the exact value of [x] is rounded to
    the nearest multiple of 1/100 (ties to even) and the binary64
    nearest to that decimal is returned; zeros, infinities and NaN round
    to themselves. *)
Definition float_round2 (x : float) : float :=
  match Prim2SF x with
  | S754_finite sign m e =>
      let k :=
        match e with
        | Zneg p => round_half_even (Zpos m * 100) (2 ^ Zpos p)
        | _ => Zpos m * 2 ^ e * 100
        end in
      int_truediv (if sign then - k else k) 100
  | _ => x
  end.

(** [round(x)] on a [float]: the nearest [int], ties to even;
    [OverflowError] on an infinity and [ValueError] on NaN. *)
Definition float_round (x : float) : exn + Z :=
  match Prim2SF x with
  | S754_zero _ => inr 0
  | S754_finite sign m e =>
      let k :=
        match e with
        | Zneg p => round_half_even (Zpos m) (2 ^ Zpos p)
        | _ => Zpos m * 2 ^ e
        end in
      inr (if sign then - k else k)
  | S754_infinity _ => inl OverflowError
  | S754_nan => inl ValueError
  end.

(** [a + b] *)
Definition add (a b : num) : num :=
  match a, b with
  | PyInt m, PyInt n => PyInt (m + n)
  | PyInt m, PyFloat y => PyFloat (float_of_Z m + y)
  | PyFloat x, PyInt n => PyFloat (x + float_of_Z n)
  | PyFloat x, PyFloat y => PyFloat (x + y)
  end.

(** [a * b] *)
Definition mul (a b : num) : num :=
  match a, b with
  | PyInt m, PyInt n => PyInt (m * n)
  | PyInt m, PyFloat y => PyFloat (float_of_Z m * y)
  | PyFloat x, PyInt n => PyFloat (x * float_of_Z n)
  | PyFloat x, PyFloat y => PyFloat (x * y)
  end.

Definition is_zero (b : num) : bool :=
  match b with
  | PyInt n => n =? 0
  | PyFloat y => PrimFloat.eqb y 0
  end.

(** [a / b]; [ZeroDivisionError] when [b] is zero. *)
Definition truediv (a b : num) : exn + num :=
  if is_zero b then inl ZeroDivisionError
  else inr (PyFloat
    match a, b with
    | PyInt m, PyInt n => int_truediv m n
    | PyInt m, PyFloat y => float_of_Z m / y
    | PyFloat x, PyInt n => x / float_of_Z n
    | PyFloat x, PyFloat y => x / y
    end).

(** [round(a, 2)]: an [int] is returned as it is. *)
Definition round2 (a : num) : num :=
  match a with
  | PyInt n => PyInt n
  | PyFloat x => PyFloat (float_round2 x)
  end.

(** [round(a)] *)
Definition round (a : num) : exn + Z :=
  match a with
  | PyInt n => inr n
  | PyFloat x => float_round x
  end.

End PyNum.

(** ** The script *)

Import Re DateTime Strptime PyNum.

(** What Jira returns: [jira.worklogs(x)] for an issue or a subtask [x],
    [issue.fields.subtasks], and the issues of the search. *)
Record work_item : Type := {
  author_displayName : string;
  started : string;
  timeSpentSeconds : Z
}.

Record subtask : Type := {
  subtask_key : string;
  subtask_summary : string;
  subtask_worklog : list work_item
}.

Record issue : Type := {
  key : string;
  summary : string;
  issue_worklog : list work_item;
  subtasks : list subtask
}.

(** The lines the script prints, each with the values its f-string
    formats; a datetime given to [strftime] is kept as the list of the
    fields the format shows. *)
Inductive line : Type :=
| Usage (prog : string)
| FailedToParse (err : exn)
| ArgparseMessage (text : string)
| ErrorStartFormat
| ErrorEndFormat
| ErrorStartDate (arg : string)
| ErrorEndDate (arg : string)
| IssueHeader (key summary : string)
| IssueWorklog (author : string) (hours : num) (started : list Z)
| SubtaskHeader (key summary : string)
| SubtaskWorklog (author : string) (hours : num) (started : list Z)
| Between (start_date end_date : list Z)
| DeveloperLogged (developer : string) (hours : num)
| TotalHoursLogged (hours : num)
| TotalDeveloperHours (hours : Z)
| PercentEffort (percent : Z)
| Traceback (err : exn).

Inductive event : Type :=
| Stdout (l : line)
| Stderr (l : line)
| JiraConnect
| JiraSearchIssues
| JiraWorklogs (key : string).

(** A computation of the script: the events it produced and either the
    exception that ended it or its value. *)
Definition M (A : Type) : Type := (list event * (exn + A))%type.

Definition ret {A : Type} (a : A) : M A := ([], inr a).

Definition raise {A : Type} (e : exn) : M A := ([], inl e).

Definition bind {A B : Type} (m : M A) (f : A -> M B) : M B :=
  match m with
  | (t, inl e) => (t, inl e)
  | (t, inr a) => let (t', r) := f a in ((t ++ t')%list, r)
  end.

Notation "x <- m ;; f" := (bind m (fun x => f))
  (at level 61, m at next level, right associativity).
Notation "m ;;; f" := (bind m (fun _ => f))
  (at level 61, right associativity).

Definition emit (ev : event) : M unit := ([ev], inr tt).

Definition print (l : line) : M unit := emit (Stdout l).

Definition lift {A : Type} (r : exn + A) : M A := ([], r).

(** [for x in xs: st = body(x, st)] *)
Fixpoint for_each {A S : Type} (body : A -> S -> M S) (xs : list A) (st : S) : M S :=
  match xs with
  | [] => ret st
  | x :: xs' => st' <- body x st ;; for_each body xs' st'
  end.

(** *** [developer_hours], a [dict] in insertion order *)

Definition dict : Type := list (string * num).

Fixpoint getitem (d : dict) (k : string) : exn + num :=
  match d with
  | [] => inl (KeyError k)
  | (k', v) :: d' => if String.eqb k' k then inr v else getitem d' k
  end.

(** [d[k] = v]: an existing key keeps its place, a new key goes last. *)
Fixpoint setitem (d : dict) (k : string) (v : num) : dict :=
  match d with
  | [] => [(k, v)]
  | (k', v') :: d' =>
      if String.eqb k' k then (k', v) :: d' else (k', v') :: setitem d' k v
  end.

Definition developer_hours_init : dict :=
  [ ("Mark Coatsworth", PyInt 0);
    ("Jaime Frey", PyInt 0);
    ("John (TJ) Knoeller", PyInt 0);
    ("Todd L Miller", PyInt 0);
    ("Zach Miller", PyInt 0);
    ("Jason Patton", PyInt 0);
    ("Todd Tannenbaum", PyInt 0);
    ("Greg Thain", PyInt 0);
    ("Tim Theisen", PyInt 0) ].

(** *** [str] methods *)

(** [s.rfind(c)] for a one-character [c]: the last index of [c] in [s],
    or -1. *)
Fixpoint rfind (c : ascii) (s : string) : Z :=
  match s with
  | EmptyString => -1
  | String a s' =>
      let i := rfind c s' in
      if 0 <=? i then 1 + i else if (code a =? code c)%N then 0 else -1
  end.

(** [s[0:i]], a negative [i] counting from the end *)
Definition slice_to (s : string) (i : Z) : string :=
  let n := Z.of_nat (String.length s) in
  let j := if i <? 0 then Z.max 0 (n + i) else Z.min i n in
  substring 0 (Z.to_nat j) s.

(** *** [print_help] and [parse_args] *)

Record namespace : Type := {
  startdate : option string;
  enddate : option string;
  detailed : bool
}.

Record arguments : Type := {
  start_datetime : datetime;
  end_datetime : datetime;
  arg_detailed : bool
}.

(** [[0-9]{4}-[0-9]{2}-[0-9]{2}] *)
Definition date_shape : regex :=
  Cat (Rep Digit 4 4)
 (Cat (Cls (Exact "-"))
 (Cat (Rep Digit 2 2)
 (Cat (Cls (Exact "-"))
      (Rep Digit 2 2)))).

(** [re.match(r'[0-9]{4}-[0-9]{2}-[0-9]{2}', arg)] as a truth value;
    [TypeError] when the option was not given and [arg] is [None]. *)
Definition match_date_shape (arg : option string) : M bool :=
  match arg with
  | None => raise TypeError
  | Some s => ret (match re_match date_shape s with Some _ => true | None => false end)
  end.

Definition print_help (prog : string) : M unit := emit (Stderr (Usage prog)).

Definition sys_exit {A : Type} (code : Z) : M A := raise (SystemExit code).

Definition text (arg : option string) : string :=
  match arg with
  | Some s => s
  | None => ""
  end.

Section Script.

(** [parser.parse_args()] of an [ArgumentParser] with the options
    [-startdate], [-enddate] and [-detailed], on [sys.argv[1:]]: a
    namespace, or messages and [SystemExit]. *)
Variable argparse : list string -> M namespace.

(** [sys.argv] is [prog :: args]. *)
Definition parse_args (prog : string) (args : list string) : M arguments :=
  let argc := Z.of_nat (List.length (prog :: args)) in
  if negb ((argc =? 5) || (argc =? 6)) then
    print_help prog ;;; sys_exit (-1)
  else
    ns <- argparse args ;;
    let start_arg := startdate ns in
    let end_arg := enddate ns in
    ok <- match_date_shape start_arg ;;
    (if negb ok then print ErrorStartFormat ;;; sys_exit (-1) else ret tt) ;;;
    ok <- match_date_shape end_arg ;;
    (if negb ok then print ErrorEndFormat ;;; sys_exit (-1) else ret tt) ;;;
    start <- match strptime (text start_arg ++ " 00:00:01") "%Y-%m-%d %H:%M:%S" with
             | inr t => ret t
             | inl _ => print (ErrorStartDate (text start_arg)) ;;; sys_exit (-1)
             end ;;
    end_ <- match strptime (text end_arg ++ " 23:59:59") "%Y-%m-%d %H:%M:%S" with
            | inr t => ret t
            | inl _ => print (ErrorEndDate (text end_arg)) ;;; sys_exit (-1)
            end ;;
    ret {| start_datetime := start; end_datetime := end_; arg_detailed := detailed ns |}.

(** *** The loops of [main] over the work logs *)

(** [round(work_item.timeSpentSeconds/3600, 2)] *)
Definition hours_spent (w : work_item) : num :=
  round2 (PyFloat (int_truediv (timeSpentSeconds w) 3600)).

(** [strftime('%Y-%m-%d %H:%M:%S')] and [strftime('%Y-%m-%d')] *)
Definition strftime_seconds (t : datetime) : list Z :=
  [year t; month t; day t; hour t; minute t; second t].

Definition strftime_date (t : datetime) : list Z :=
  [year t; month t; day t].

(** [work_datetime > start_datetime and work_datetime < end_datetime] *)
Definition in_window (a : arguments) (work_datetime : datetime) : bool :=
  gt work_datetime (start_datetime a) && lt work_datetime (end_datetime a).

(** [datetime.strptime(work_item.started, "%Y-%m-%dT%H:%M:%S.%f-0600")] *)
Definition work_datetime (w : work_item) : exn + datetime :=
  strptime (started w) "%Y-%m-%dT%H:%M:%S.%f-0600".

(** [started = work_item.started[0:work_item.started.rfind("-")]] and
    [datetime.strptime(started, "%Y-%m-%dT%H:%M:%S.%f")] *)
Definition started_datetime (w : work_item) : exn + datetime :=
  strptime (slice_to (started w) (rfind "-" (started w))) "%Y-%m-%dT%H:%M:%S.%f".

(** The body of the loop over a work log, for an issue and for a
    subtask alike but for the two lines printed: [header] is the header
    of the issue or subtask and [detail] the line of one work item.  The
    state is [display_issue_header] (or [display_subtask_header]) and
    [developer_hours]. *)
Definition log_work (header : line) (detail : string -> num -> list Z -> line)
           (a : arguments) (w : work_item) (st : bool * dict) : M (bool * dict) :=
  let (display_header, developer_hours) := st in
  t <- lift (work_datetime w) ;;
  if in_window a t then
    display_header <-
      (if display_header && arg_detailed a
       then print header ;;; ret false
       else ret display_header) ;;
    (if arg_detailed a then
       t' <- lift (started_datetime w) ;;
       print (detail (author_displayName w) (hours_spent w) (strftime_seconds t'))
     else ret tt) ;;;
    hours <- lift (getitem developer_hours (author_displayName w)) ;;
    ret (display_header,
         setitem developer_hours (author_displayName w) (add hours (hours_spent w)))
  else ret (display_header, developer_hours).

(** [for work_item in jira.worklogs(x): ...], the header flag set
    before the loop *)
Definition log_worklog (key : string) (header : line)
           (detail : string -> num -> list Z -> line)
           (a : arguments) (worklog : list work_item) (developer_hours : dict) : M dict :=
  emit (JiraWorklogs key) ;;;
  st <- for_each (log_work header detail a) worklog (true, developer_hours) ;;
  ret (snd st).

Definition log_subtask (a : arguments) (t : subtask) (developer_hours : dict) : M dict :=
  log_worklog (subtask_key t) (SubtaskHeader (subtask_key t) (subtask_summary t))
              SubtaskWorklog a (subtask_worklog t) developer_hours.

Definition log_issue (a : arguments) (i : issue) (developer_hours : dict) : M dict :=
  developer_hours <-
    log_worklog (key i) (IssueHeader (key i) (summary i))
                IssueWorklog a (issue_worklog i) developer_hours ;;
  for_each (log_subtask a) (subtasks i) developer_hours.

(** *** The report printed at the end of [main] *)

Definition report_developer (entry : string * num) (total_hours_logged : num) : M num :=
  print (DeveloperLogged (fst entry) (round2 (snd entry))) ;;;
  ret (add total_hours_logged (snd entry)).

(** [len(developer_hours)*40] *)
Definition total_developer_hours (developer_hours : dict) : Z :=
  Z.of_nat (List.length developer_hours) * 40.

(** [round(total_hours_logged*100/(len(developer_hours)*40))] *)
Definition percent_effort (total_hours_logged : num) (developer_hours : dict) : exn + Z :=
  match truediv (mul total_hours_logged (PyInt 100))
                (PyInt (total_developer_hours developer_hours)) with
  | inl e => inl e
  | inr q => round q
  end.

Definition report (a : arguments) (developer_hours : dict) : M unit :=
  print (Between (strftime_date (start_datetime a)) (strftime_date (end_datetime a))) ;;;
  total_hours_logged <- for_each report_developer developer_hours (PyInt 0) ;;
  print (TotalHoursLogged total_hours_logged) ;;;
  print (TotalDeveloperHours (total_developer_hours developer_hours)) ;;;
  percent <- lift (percent_effort total_hours_logged developer_hours) ;;
  print (PercentEffort percent).

(** *** [main] *)

(** [try: args = parse_args() / except Exception as err: print(...)]:
    after the handler [args] is not bound and its first use raises. *)
Definition main_parse_args (prog : string) (args : list string) : M arguments :=
  match parse_args prog args with
  | (t, inl err) =>
      if is_Exception err
      then (t, inr tt) ;;; emit (Stderr (FailedToParse err)) ;;; raise UnboundLocalError
      else (t, inl err)
  | (t, inr a) => (t, inr a)
  end.

(** [jira_issues] is what the search of Jira returns. *)
Definition main (prog : string) (args : list string) (jira_issues : list issue) : M unit :=
  a <- main_parse_args prog args ;;
  emit JiraConnect ;;;
  emit JiraSearchIssues ;;;
  developer_hours <- for_each (log_issue a) jira_issues developer_hours_init ;;
  report a developer_hours.

(** The process: an exception that leaves [main] other than
    [SystemExit] is reported on standard error with its traceback and
    the status is 1; [SystemExit] gives its code, modulo 256, as the
    status. *)
Definition run (prog : string) (args : list string) (jira_issues : list issue)
  : list event * Z :=
  match main prog args jira_issues with
  | (t, inr _) => (t, 0)
  | (t, inl (SystemExit code)) => (t, code mod 256)
  | (t, inl err) => ((t ++ [Stderr (Traceback err)])%list, 1)
  end.

End Script.

(** An [argparse] for the command lines that spell the options in full:
    [-startdate D], [-enddate D] and [-detailed], in any order; anything
    else is an error of status 2. *)
Fixpoint argparse_full (args : list string) (ns : namespace) : M namespace :=
  match args with
  | [] => ret ns
  | o :: rest =>
      if String.eqb o "-detailed" then
        argparse_full rest {| startdate := startdate ns; enddate := enddate ns; detailed := true |}
      else
        match rest with
        | v :: rest' =>
            if String.eqb o "-startdate" then
              argparse_full rest' {| startdate := Some v; enddate := enddate ns; detailed := detailed ns |}
            else if String.eqb o "-enddate" then
              argparse_full rest' {| startdate := startdate ns; enddate := Some v; detailed := detailed ns |}
            else emit (Stderr (ArgparseMessage o)) ;;; sys_exit 2
        | [] => emit (Stderr (ArgparseMessage o)) ;;; sys_exit 2
        end
  end.

Definition argparse_simple (args : list string) : M namespace :=
  argparse_full args {| startdate := None; enddate := None; detailed := false |}.


(** * Vocabulary of the properties *)

(** ** The language of a pattern *)

Module ReSpec.
Import Re.

Fixpoint all_in (p : cls) (s : string) : Prop :=
  match s with
  | EmptyString => True
  | String c s' => mem p c = true /\ all_in p s'
  end.

(** [matches r m caps caps']: [r] matches exactly the text [m] and
    extends the groups [caps] to [caps']. *)
Fixpoint matches (r : regex) (m : string) (caps caps' : captures) : Prop :=
  match r with
  | Eps => m = "" /\ caps' = caps
  | Cls p => (exists c, m = String c "" /\ mem p c = true) /\ caps' = caps
  | Cat r1 r2 =>
      exists m1 m2 c1,
        m = m1 ++ m2 /\ matches r1 m1 caps c1 /\ matches r2 m2 c1 caps'
  | Alt r1 r2 => matches r1 m caps caps' \/ matches r2 m caps caps'
  | Plus p => (m <> "" /\ all_in p m) /\ caps' = caps
  | Rep p lo hi => ((lo <= String.length m <= hi)%nat /\ all_in p m) /\ caps' = caps
  | Grp n r' => exists c1, matches r' m caps c1 /\ caps' = (n, m) :: c1
  end.

(** The pattern has no group. *)
Fixpoint groupless (r : regex) : bool :=
  match r with
  | Cat r1 r2 | Alt r1 r2 => groupless r1 && groupless r2
  | Grp _ _ => false
  | _ => true
  end.

(** The match of [r] at the start of [s] with the groups [caps] found
    so far: the groups and the rest of [s]. *)
Definition run (r : regex) (s : string) (caps : captures) : option (captures * string) :=
  rmatch r s caps (fun _ rest caps' => Some (caps', rest)).

(** A character that is not a decimal digit. *)
Definition not_a_digit (a : ascii) : bool :=
  ((code a <? 48) || ((57 <? code a) && (code a <? 65)) || ((90 <? code a) && (code a <? 97))
   || (122 <? code a) || ((65 <=? code a) && (code a <=? 90))
   || ((97 <=? code a) && (code a <=? 122)))%N.

(** The text starts with a character that is not a digit. *)
Definition nondigit_head (x : string) : Prop :=
  exists c x', x = String c x' /\ is_digit c = false.

(** A pattern whose match at the start of a text is fixed by the text as
    soon as a character that is not a digit follows the match. *)
Definition token (r : regex) : Prop :=
  forall m m' x x' c c1 c1',
    matches r m c c1 -> matches r m' c c1' -> m ++ x = m' ++ x' ->
    nondigit_head x -> nondigit_head x' -> m = m' /\ c1 = c1'.

End ReSpec.

(** ** The compiled formats *)

Module Formats.
Import Re Strptime.

(** The fields up to the seconds, [sep] between the date and the
    time, and [tail] after the seconds. *)
Definition date_time (sep tail : regex) : regex :=
  Cat re_Y (Cat (chr "-"%char) (Cat re_m (Cat (chr "-"%char) (Cat re_d (Cat sep
 (Cat re_H (Cat (chr ":"%char) (Cat re_M (Cat (chr ":"%char) (Cat re_S tail)))))))))).

(** ["%Y-%m-%d %H:%M:%S"] *)
Definition argument_regex : regex := date_time (Plus Space) Eps.

(** ["%Y-%m-%dT%H:%M:%S.%f"] *)
Definition started_regex : regex :=
  date_time (chr "T"%char) (Cat (chr "."%char) (Cat re_f Eps)).

(** ["%Y-%m-%dT%H:%M:%S.%f-0600"] *)
Definition worklog_regex : regex :=
  date_time (chr "T"%char)
    (Cat (chr "."%char) (Cat re_f
      (Cat (chr "-"%char) (Cat (chr "0"%char) (Cat (chr "6"%char) (Cat (chr "0"%char) (Cat (chr "0"%char) Eps))))))).

(** The datetime of the groups of a match. *)
Definition datetime_of (found : captures) : exn + DateTime.datetime :=
  DateTime.make (field "Y"%char 1900 found) (field "m"%char 1 found) (field "d"%char 1 found)
                (field "H"%char 0 found) (field "M"%char 0 found) (field "S"%char 0 found)
                (fraction found).

(** The parts of a timestamp: the texts of the seven fields and the
    character between the date and the time. *)
Record parts : Type := {
  pY : string; pm : string; pd : string; pT : ascii;
  pH : string; pM : string; pS : string; pf : string
}.

(** The timestamp made of the parts, then [suffix]. *)
Definition stamp (p : parts) (suffix : string) : string :=
  pY p ++ String "-"%char (pm p ++ String "-"%char (pd p ++ String (pT p)
 (pH p ++ String ":"%char (pM p ++ String ":"%char (pS p ++ String "."%char (pf p ++ suffix)))))).

(** The groups of the match of a timestamp, the last found first. *)
Definition groups (p : parts) : captures :=
  [("f"%char, pf p); ("S"%char, pS p); ("M"%char, pM p); ("H"%char, pH p);
   ("d"%char, pd p); ("m"%char, pm p); ("Y"%char, pY p)].

(** Each part is a text of its directive. *)
Definition well_parts (p : parts) : Prop :=
  (forall c, ReSpec.matches re_Y (pY p) c (("Y"%char, pY p) :: c))
  /\ (forall c, ReSpec.matches re_m (pm p) c (("m"%char, pm p) :: c))
  /\ (forall c, ReSpec.matches re_d (pd p) c (("d"%char, pd p) :: c))
  /\ lit "T"%char (pT p) = true
  /\ (forall c, ReSpec.matches re_H (pH p) c (("H"%char, pH p) :: c))
  /\ (forall c, ReSpec.matches re_M (pM p) c (("M"%char, pM p) :: c))
  /\ (forall c, ReSpec.matches re_S (pS p) c (("S"%char, pS p) :: c))
  /\ (1 <= String.length (pf p) <= 6)%nat /\ ReSpec.all_in Digit (pf p).

End Formats.

(** ** Records, windows and tallies *)

(** [window.start < t < window.end], both strict, in the order of
    datetimes. *)
Definition inside (a : arguments) (t : datetime) : bool :=
  match DateTime.compare (start_datetime a) t, DateTime.compare t (end_datetime a) with
  | Lt, Lt => true
  | _, _ => false
  end.

(** The work item has a start that parses and lies strictly inside the
    window. *)
Definition counted (a : arguments) (w : work_item) : bool :=
  match work_datetime w with
  | inr t => inside a t
  | inl _ => false
  end.

(** The start of the work item is a timestamp that [strptime] converts. *)
Definition well_formed (w : work_item) : Prop :=
  exists t, work_datetime w = inr t.

(** The author of the work item is a key of the dict. *)
Definition known (d : dict) (w : work_item) : Prop :=
  exists v, getitem d (author_displayName w) = inr v.

Definition value (d : dict) (k : string) : num :=
  match getitem d k with
  | inr v => v
  | inl _ => PyInt 0
  end.

(** Every work item of the list is well formed and, when it is counted,
    has a known author. *)
Definition clean (a : arguments) (d : dict) (ws : list work_item) : Prop :=
  forall w, In w ws -> well_formed w /\ (counted a w = true -> known d w).

(** [developer_hours[author] += hours] for one work item *)
Definition credit (d : dict) (w : work_item) : dict :=
  setitem d (author_displayName w)
          (add (value d (author_displayName w)) (hours_spent w)).

(** The line of detailed mode for one work item. *)
Definition detail_line (detail : string -> num -> list Z -> line) (w : work_item) : event :=
  Stdout (detail (author_displayName w) (hours_spent w)
                 (match started_datetime w with
                  | inr t' => strftime_seconds t'
                  | inl _ => []
                  end)).

(** The lines of detailed mode for one work log: nothing when no work
    item is counted, else the header and one line for each counted
    item. *)
Definition detailed_lines (header : line) (detail : string -> num -> list Z -> line)
           (a : arguments) (worklog : list work_item) : list event :=
  if existsb (counted a) worklog
  then Stdout header :: map (detail_line detail) (filter (counted a) worklog)
  else [].

(** The work items of an issue in the order [main] visits them: its own
    work log, then the work log of each subtask. *)
Definition issue_items (i : issue) : list work_item :=
  (issue_worklog i ++ flat_map subtask_worklog (subtasks i))%list.

(** The hours after the counted work items of [ws] are credited in
    order. *)
Definition tally (a : arguments) (ws : list work_item) (d : dict) : dict :=
  fold_left credit (filter (counted a) ws) d.

(** The events of a subtask and of an issue in a run without error. *)
Definition subtask_events (a : arguments) (t : subtask) : list event :=
  JiraWorklogs (subtask_key t) ::
    (if arg_detailed a
     then detailed_lines (SubtaskHeader (subtask_key t) (subtask_summary t))
                         SubtaskWorklog a (subtask_worklog t)
     else []).

Definition issue_events (a : arguments) (i : issue) : list event :=
  (JiraWorklogs (key i) ::
    (if arg_detailed a
     then detailed_lines (IssueHeader (key i) (summary i)) IssueWorklog a (issue_worklog i)
     else [])
   ++ flat_map (subtask_events a) (subtasks i))%list.

(** What one work item does to [developer_hours], or the exception it
    raises. *)
Definition step (a : arguments) (w : work_item) (d : dict) : exn + dict :=
  match work_datetime w with
  | inl e => inl e
  | inr t =>
      if inside a t then
        match getitem d (author_displayName w) with
        | inl e => inl e
        | inr v => inr (setitem d (author_displayName w) (add v (hours_spent w)))
        end
      else inr d
  end.

(** The work items one after the other, up to the first exception. *)
Fixpoint steps (a : arguments) (ws : list work_item) (d : dict) : exn + dict :=
  match ws with
  | [] => inr d
  | w :: ws' =>
      match step a w d with
      | inl e => inl e
      | inr d' => steps a ws' d'
      end
  end.

(** The events of the loops over the work logs: a call to Jira for a work
    log, a header, or the line of a work item. *)
Definition work_event (ev : event) : Prop :=
  match ev with
  | JiraWorklogs _
  | Stdout (IssueHeader _ _) | Stdout (IssueWorklog _ _ _)
  | Stdout (SubtaskHeader _ _) | Stdout (SubtaskWorklog _ _ _) => True
  | _ => False
  end.

(** The lines [header] and [detail] are lines of the work logs. *)
Definition work_lines (header : line) (detail : string -> num -> list Z -> line) : Prop :=
  work_event (Stdout header) /\ forall x y z, work_event (Stdout (detail x y z)).

(** All the work items of the issues in the order [main] visits them. *)
Definition all_items (jira_issues : list issue) : list work_item :=
  flat_map issue_items jira_issues.

(** ** The report *)

(** The line of a developer: the hours are shown rounded to two
    decimals. *)
Definition developer_line (entry : string * num) : event :=
  Stdout (DeveloperLogged (fst entry) (round2 (snd entry))).

(** The sum of the hours of the developers, in the order of the dict,
    from the [int] 0. *)
Definition grand_total (d : dict) : num := fold_left add (map snd d) (PyInt 0).

(** The events of the report for the hours [d]. *)
Definition report_events (a : arguments) (d : dict) : list event :=
  (Stdout (Between (strftime_date (start_datetime a)) (strftime_date (end_datetime a)))
   :: map developer_line d
   ++ [Stdout (TotalHoursLogged (grand_total d));
       Stdout (TotalDeveloperHours (total_developer_hours d))]
   ++ match percent_effort (grand_total d) d with
      | inr k => [Stdout (PercentEffort k)]
      | inl _ => []
      end)%list.

(** ** Texts *)

(** [s] ends with [suffix]. *)
Fixpoint has_suffix (suffix s : string) : bool :=
  String.eqb s suffix
  || match s with
     | String _ s' => has_suffix suffix s'
     | EmptyString => false
     end.

(** The text has a point followed by a digit. *)
Fixpoint has_fraction (s : string) : bool :=
  match s with
  | EmptyString => false
  | String a s' =>
      match s' with
      | String b _ => (Re.code a =? Re.code ".")%N && Re.is_digit b
      | EmptyString => false
      end
      || has_fraction s'
  end.

(** [clean], decided. *)
Definition clean_b (a : arguments) (d : dict) (ws : list work_item) : bool :=
  forallb (fun w =>
    match work_datetime w with
    | inl _ => false
    | inr t =>
        if inside a t
        then match getitem d (author_displayName w) with inr _ => true | inl _ => false end
        else true
    end) ws.

(** The work items of an author, in order. *)
Definition by_author (name : string) (ws : list work_item) : list work_item :=
  filter (fun w => String.eqb (author_displayName w) name) ws.

(** The hours of an author after the work items [ws] are credited to an
    entry that held [v]. *)
Definition author_total (name : string) (ws : list work_item) (v : num) : num :=
  fold_left add (map hours_spent (by_author name ws)) v.

(** The [float] held for a developer, as its sign, mantissa and exponent. *)
Definition float_of_entry (r : exn + dict) (name : string) : spec_float :=
  match r with
  | inr d =>
      match getitem d name with
      | inr (PyFloat x) => Prim2SF x
      | _ => S754_nan
      end
  | inl _ => S754_nan
  end.

(** ** Rounding *)


(** [k] is an integer nearest to the value of the [float] [x], and the
    even one of the two when [x] is half way between two integers. *)
Definition nearest_even (x : float) (k : Z) : Prop :=
  match Prim2SF x with
  | S754_zero _ => k = 0
  | S754_finite sign m e =>
      let n := if sign then Zneg m else Zpos m in
      match e with
      | Zneg p =>
          2 * Z.abs (k * 2 ^ Zpos p - n) <= 2 ^ Zpos p
          /\ (2 * Z.abs (k * 2 ^ Zpos p - n) = 2 ^ Zpos p -> Z.even k = true)
      | _ => k = n * 2 ^ e
      end
  | _ => False
  end.

(** The integer nearest to [n/d] for [0 <= n] and [0 < d], a half going
    up. *)
Definition round_half_up (n d : Z) : Z := (2 * n + d) / (2 * d).

(** Rounding to the nearest integer with halves away from zero. *)
Definition standard_round (x : float) : option Z :=
  match Prim2SF x with
  | S754_zero _ => Some 0
  | S754_finite sign m e =>
      let k :=
        match e with
        | Zneg p => round_half_up (Zpos m) (2 ^ Zpos p)
        | _ => Zpos m * 2 ^ e
        end in
      Some (if sign then - k else k)
  | _ => None
  end.

(** ** Dates *)

(** The year, month and day of a text of the shape [YYYY-MM-DD]: four
    digits, a hyphen, two digits, a hyphen, two digits, and nothing
    else. *)
Definition date_of_string (s : string) : option (Z * Z * Z) :=
  match s with
  | String y1 (String y2 (String y3 (String y4 (String h1
   (String m1 (String m2 (String h2 (String d1 (String d2 EmptyString))))))))) =>
      if forallb Re.is_digit [y1; y2; y3; y4; m1; m2; d1; d2]
         && Re.exact "-" h1 && Re.exact "-" h2
      then Some (Strptime.int (String y1 (String y2 (String y3 (String y4 "")))),
                 Strptime.int (String m1 (String m2 "")),
                 Strptime.int (String d1 (String d2 "")))
      else None
  | _ => None
  end.

(** The first ten characters of the text have the shape [YYYY-MM-DD];
    anything may follow. *)
Definition starts_with_date (s : string) : bool :=
  match s with
  | String y1 (String y2 (String y3 (String y4 (String h1
   (String m1 (String m2 (String h2 (String d1 (String d2 _))))))))) =>
      forallb Re.is_digit [y1; y2; y3; y4] && Re.exact "-" h1
      && forallb Re.is_digit [m1; m2] && Re.exact "-" h2
      && forallb Re.is_digit [d1; d2]
  | _ => false
  end.

(** The calls to Jira for the work logs of an issue and of its subtasks,
    in order. *)
Definition worklog_calls (i : issue) : list event :=
  JiraWorklogs (key i) :: map (fun t => JiraWorklogs (subtask_key t)) (subtasks i).

(** The text is made of white space only (it may be empty). *)
Definition white (s : string) : bool := forallb Re.is_space (list_ascii_of_string s).

(** No character of the text is white space. *)
Definition spaceless (s : string) : bool :=
  forallb (fun c => negb (Re.is_space c)) (list_ascii_of_string s).

(** ** Examples *)

Definition january (detailed : bool) : arguments :=
  {| start_datetime := DateTime.mk 2023 1 1 0 0 1 0;
     end_datetime := DateTime.mk 2023 1 31 23 59 59 0;
     arg_detailed := detailed |}.

Definition january_args : list string :=
  ["-startdate"; "2023-01-01"; "-enddate"; "2023-01-31"].

(** A work item of the 15th of January 2023 at ten. *)
Definition worked (author : string) (seconds : Z) : work_item :=
  {| author_displayName := author;
     started := "2023-01-15T10:00:00.000-0600";
     timeSpentSeconds := seconds |}.

Definition one_issue (worklog : list work_item) : issue :=
  {| key := "HTCONDOR-1"; summary := "An improvement";
     issue_worklog := worklog; subtasks := [] |}.

(** * Properties *)

(** ** The monad and the loops *)

Lemma bind_ret {A B : Type} (a : A) (f : A -> M B) : bind (ret a) f = f a.
Proof. unfold bind, ret. destruct (f a) as [t r]. reflexivity. Qed.

Lemma bind_raise {A B : Type} (e : exn) (f : A -> M B) : bind (raise e) f = raise e.
Proof. reflexivity. Qed.

Lemma bind_value {A B : Type} (m : M A) (f : A -> M B) (t : list event) (a : A) :
  m = (t, inr a) -> bind m f = ((t ++ fst (f a))%list, snd (f a)).
Proof. intros ->. unfold bind. destruct (f a). reflexivity. Qed.

Lemma bind_error {A B : Type} (m : M A) (f : A -> M B) (t : list event) (e : exn) :
  m = (t, inl e) -> bind m f = (t, inl e).
Proof. intros ->. reflexivity. Qed.

Lemma for_each_cons {A S : Type} (body : A -> S -> M S) (x : A) (xs : list A) (st : S) :
  for_each body (x :: xs) st = bind (body x st) (for_each body xs).
Proof. reflexivity. Qed.

Lemma for_each_app {A S : Type} (body : A -> S -> M S) (xs ys : list A) (st : S) :
  for_each body (xs ++ ys)%list st = bind (for_each body xs st) (for_each body ys).
Proof.
  revert st. induction xs as [|x xs IH]; intros st.
  - symmetry. apply bind_ret.
  - simpl. destruct (body x st) as [t [e|st']]; simpl; [reflexivity|].
    rewrite IH. destruct (for_each body xs st') as [t1 [e1|st1]]; simpl.
    + reflexivity.
    + destruct (for_each body ys st1) as [t2 r2]. rewrite app_assoc. reflexivity.
Qed.

(** ** Strings *)

Lemma append_assoc (a b c : string) : (a ++ b) ++ c = a ++ (b ++ c).
Proof. induction a as [|x a IH]; simpl; [reflexivity | now rewrite IH]. Qed.

Lemma append_empty_r (a : string) : a ++ "" = a.
Proof. induction a as [|x a IH]; simpl; [reflexivity | now rewrite IH]. Qed.

Lemma length_append (a b : string) :
  String.length (a ++ b) = (String.length a + String.length b)%nat.
Proof. induction a as [|x a IH]; simpl; [reflexivity | now rewrite IH]. Qed.

(** ** What the matcher accepts *)

Module ReFacts.
Import Re ReSpec.

Lemma orelse_some {R : Type} (x y : option R) (r : R) :
  orelse x y = Some r -> x = Some r \/ y = Some r.
Proof. destruct x; simpl; auto. Qed.

Lemma star_sound {R : Type} (p : cls) (s : string) :
  forall (k : string -> string -> option R) (res : R),
    star p s k = Some res ->
    exists m rest, s = m ++ rest /\ all_in p m /\ k m rest = Some res.
Proof.
  induction s as [|c s IH]; intros k res H; simpl in H.
  - exists "", "". simpl. auto.
  - destruct (mem p c) eqn:Hc.
    + apply orelse_some in H. destruct H as [H|H].
      * apply IH in H. destruct H as (m & rest & -> & Hm & Hk).
        exists (String c m), rest. simpl. auto.
      * exists "", (String c s). simpl. auto.
    + exists "", (String c s). simpl. auto.
Qed.

Lemma rep_sound {R : Type} (p : cls) (hi : nat) :
  forall (lo : nat) (s : string) (k : string -> string -> option R) (res : R),
    rep p lo hi s k = Some res ->
    exists m rest,
      s = m ++ rest /\ (lo <= String.length m <= hi)%nat /\ all_in p m
      /\ k m rest = Some res.
Proof.
  induction hi as [|hi IH]; intros lo s k res H.
  - simpl in H. destruct lo; [|discriminate].
    exists "", s. simpl. auto.
  - assert (Hstop : match lo with O => k "" s | S _ => None end = Some res ->
                    exists m rest, s = m ++ rest
                      /\ (lo <= String.length m <= S hi)%nat /\ all_in p m
                      /\ k m rest = Some res).
    { destruct lo; [|discriminate]. intros Hk. exists "", s. simpl.
      repeat split; auto; lia. }
    simpl in H. destruct s as [|c s]; [now apply Hstop|].
    destruct (mem p c) eqn:Hc; [|now apply Hstop].
    apply orelse_some in H. destruct H as [H|H]; [|now apply Hstop].
    apply IH in H. destruct H as (m & rest & -> & Hlen & Hm & Hk).
    exists (String c m), rest. simpl. repeat split; auto; lia.
Qed.

(** Soundness of the matcher: a result comes from a match of a prefix
    of the subject on which the continuation succeeded. *)
Lemma rmatch_sound {R : Type} (r : regex) :
  forall (s : string) (caps : captures)
         (k : string -> string -> captures -> option R) (res : R),
    rmatch r s caps k = Some res ->
    exists m rest caps',
      s = m ++ rest /\ matches r m caps caps' /\ k m rest caps' = Some res.
Proof.
  induction r as [|p|r1 IH1 r2 IH2|r1 IH1 r2 IH2|p|p lo hi|n r IH];
    intros s caps k res H; simpl in H.
  - exists "", s, caps. simpl. auto.
  - destruct s as [|c s]; [discriminate|].
    destruct (mem p c) eqn:Hc; [|discriminate].
    exists (String c ""), s, caps. simpl. eauto 6.
  - apply IH1 in H. destruct H as (m1 & rest1 & c1 & -> & Hm1 & H).
    apply IH2 in H. destruct H as (m2 & rest2 & c2 & -> & Hm2 & H).
    exists (m1 ++ m2), rest2, c2. rewrite append_assoc.
    split; [reflexivity|]. split; [|exact H].
    simpl. exists m1, m2, c1. auto.
  - apply orelse_some in H. destruct H as [H|H].
    + apply IH1 in H. destruct H as (m & rest & c' & -> & Hm & H).
      exists m, rest, c'. simpl. auto.
    + apply IH2 in H. destruct H as (m & rest & c' & -> & Hm & H).
      exists m, rest, c'. simpl. auto.
  - destruct s as [|c s]; [discriminate|].
    destruct (mem p c) eqn:Hc; [|discriminate].
    apply star_sound in H. destruct H as (m & rest & -> & Hm & H).
    exists (String c m), rest, caps. simpl. repeat split; auto. discriminate.
  - apply rep_sound in H. destruct H as (m & rest & -> & Hlen & Hm & H).
    exists m, rest, caps. simpl. auto.
  - apply IH in H. destruct H as (m & rest & c' & -> & Hm & H).
    exists m, rest, ((n, m) :: c'). simpl. eauto.
Qed.

Lemma orelse_is_some {R : Type} (x y : option R) :
  (exists r, x = Some r) \/ (exists r, y = Some r) -> exists r, orelse x y = Some r.
Proof. destruct x as [r0|]; simpl; intros [[r1 H]|[r1 H]]; eauto; discriminate. Qed.

Lemma star_complete {R : Type} (p : cls) (m : string) :
  forall (rest : string) (k : string -> string -> option R) (res : R),
    all_in p m -> k m rest = Some res -> exists res', star p (m ++ rest) k = Some res'.
Proof.
  induction m as [|c m IH]; intros rest k res Hm Hk; simpl.
  - destruct rest as [|c rest]; simpl; [eauto|].
    destruct (mem p c); [|eauto]. apply orelse_is_some. eauto.
  - destruct Hm as [Hc Hm]. rewrite Hc. apply orelse_is_some. left.
    apply (IH rest (fun m0 r => k (String c m0) r) res Hm Hk).
Qed.

Lemma rep_complete {R : Type} (p : cls) (m : string) :
  forall (lo hi : nat) (rest : string) (k : string -> string -> option R) (res : R),
    (lo <= String.length m <= hi)%nat -> all_in p m -> k m rest = Some res ->
    exists res', rep p lo hi (m ++ rest) k = Some res'.
Proof.
  induction m as [|c m IH]; intros lo hi rest k res Hlen Hm Hk; simpl in *.
  - assert (lo = O) by lia. subst lo.
    destruct hi as [|hi]; simpl; [eauto|].
    destruct rest as [|c rest]; [eauto|].
    destruct (mem p c); [|eauto]. apply orelse_is_some. eauto.
  - destruct Hm as [Hc Hm]. destruct hi as [|hi]; [lia|]. simpl. rewrite Hc.
    apply orelse_is_some. left.
    apply (IH (pred lo) hi rest (fun m0 r => k (String c m0) r) res); auto. lia.
Qed.

(** Completeness of the matcher: when some match of a prefix satisfies
    the continuation, the matcher returns a result. *)
Lemma rmatch_complete {R : Type} (r : regex) :
  forall (m rest : string) (caps caps' : captures)
         (k : string -> string -> captures -> option R) (res : R),
    matches r m caps caps' -> k m rest caps' = Some res ->
    exists res', rmatch r (m ++ rest) caps k = Some res'.
Proof.
  induction r as [|p|r1 IH1 r2 IH2|r1 IH1 r2 IH2|p|p lo hi|n r IH];
    intros m rest caps caps' k res Hm Hk; simpl in Hm.
  - destruct Hm as [-> ->]. simpl. eauto.
  - destruct Hm as [(c & -> & Hc) ->]. simpl. rewrite Hc. eauto.
  - destruct Hm as (m1 & m2 & c1 & -> & Hm1 & Hm2). simpl. rewrite append_assoc.
    destruct (IH2 m2 rest c1 caps' (fun m0 s2 c2 => k (m1 ++ m0) s2 c2) res Hm2 Hk)
      as [res2 H2].
    apply (IH1 m1 (m2 ++ rest) caps c1 _ res2 Hm1 H2).
  - simpl. apply orelse_is_some. destruct Hm as [Hm|Hm]; [left|right]; eauto.
  - destruct Hm as [[Hne Hm] ->]. destruct m as [|c m]; [congruence|].
    destruct Hm as [Hc Hm]. simpl. rewrite Hc.
    apply (star_complete p m rest (fun m0 r => k (String c m0) r caps) res Hm Hk).
  - destruct Hm as [[Hlen Hm] ->]. simpl.
    apply (rep_complete p m lo hi rest (fun m0 r => k m0 r caps) res Hlen Hm Hk).
  - destruct Hm as (c1 & Hm & ->). simpl.
    apply (IH m rest caps c1 (fun m0 s' c' => k m0 s' ((n, m0) :: c')) res Hm Hk).
Qed.

Lemma append_cancel_l (m x x' : string) : m ++ x = m ++ x' -> x = x'.
Proof. induction m as [|c m IH]; simpl; intros H; [exact H|]. injection H. exact IH. Qed.

(** A token followed by something that starts with a non-digit is
    matched in one way only: the result is the one of the continuation
    on that match. *)
Lemma token_exact {R : Type} (r : regex) (k : string -> string -> captures -> option R)
      (m x : string) (c c1 : captures) (res : R) :
  token r ->
  (forall m' x' c' res', k m' x' c' = Some res' -> nondigit_head x') ->
  matches r m c c1 -> k m x c1 = Some res ->
  rmatch r (m ++ x) c k = Some res.
Proof.
  intros Htok Hk Hm Hres.
  destruct (rmatch_complete r m x c c1 k res Hm Hres) as [res0 H0].
  rewrite H0. f_equal.
  apply rmatch_sound in H0. destruct H0 as (m' & x' & c1' & E & Hm' & H0).
  destruct (Htok m m' x x' c c1 c1' Hm Hm' E (Hk _ _ _ _ Hres) (Hk _ _ _ _ H0))
    as [<- <-].
  apply append_cancel_l in E. subst x'. congruence.
Qed.

End ReFacts.

(** ** The directives of [strptime] are tokens *)

Module StrptimeFacts.
Import Re ReSpec ReFacts Strptime.

(** Decides the comparisons of codes in the goal and the hypotheses. *)
Ltac codes :=
  repeat match goal with
         | |- context [N.leb ?a ?b] => destruct (N.leb_spec a b)
         | |- context [N.ltb ?a ?b] => destruct (N.ltb_spec a b)
         | |- context [N.eqb ?a ?b] => destruct (N.eqb_spec a b)
         | H : context [N.leb ?a ?b] |- _ => destruct (N.leb_spec a b)
         | H : context [N.ltb ?a ?b] |- _ => destruct (N.ltb_spec a b)
         | H : context [N.eqb ?a ?b] |- _ => destruct (N.eqb_spec a b)
         end;
  simpl in *; try discriminate; try reflexivity; try lia.

Lemma range_is_digit (a b c : ascii) :
  is_digit a = true -> is_digit b = true -> range a b c = true -> is_digit c = true.
Proof.
  unfold is_digit, range. generalize (code a), (code b), (code c).
  intros x y z Hx Hy Hz. codes.
Qed.

Lemma code_inj (a b : ascii) : code a = code b -> a = b.
Proof.
  unfold code. intros H.
  rewrite <- (ascii_N_embedding a), <- (ascii_N_embedding b). now rewrite H.
Qed.

Lemma lower_code (c : ascii) :
  code (lower c)
  = if ((65 <=? code c) && (code c <=? 90))%N then (code c + 32)%N else code c.
Proof.
  unfold lower. destruct ((65 <=? code c) && (code c <=? 90))%N eqn:E; [|reflexivity].
  apply andb_true_iff in E. destruct E as [E1 E2]. apply N.leb_le in E1, E2.
  unfold code in *. apply N_ascii_embedding. lia.
Qed.

(** A literal that is not a letter matches itself only. *)
Lemma lit_exact (a c : ascii) :
  ((code a <? 65) || (122 <? code a) || ((90 <? code a) && (code a <? 97)))%N = true ->
  lit a c = true -> c = a.
Proof.
  unfold lit. rewrite !lower_code. intros Ha H.
  apply code_inj. generalize dependent (code a). generalize (code c).
  intros y x Ha H. codes.
Qed.

Lemma lit_not_digit (a c : ascii) :
  not_a_digit a = true -> lit a c = true -> is_digit c = false.
Proof.
  unfold not_a_digit, lit, is_digit. rewrite !lower_code.
  generalize (code a). generalize (code c). intros y x Ha H.
  apply Bool.not_true_is_false. intros G.
  apply andb_true_iff in G. destruct G as [G1 G2]. apply N.leb_le in G1, G2.
  apply N.eqb_eq in H.
  replace ((65 <=? y) && (y <=? 90))%N with false in H
    by (symmetry; apply andb_false_iff; left; apply N.leb_gt; lia).
  destruct ((65 <=? x) && (x <=? 90))%N eqn:E.
  - apply andb_true_iff in E. destruct E as [E1 E2]. apply N.leb_le in E1, E2. lia.
  - subst y. clear E.
    repeat (apply orb_true_iff in Ha; destruct Ha as [Ha|Ha]);
      repeat (apply andb_true_iff in Ha; destruct Ha as [Ha ?]);
      repeat match goal with
             | K : (_ <? _)%N = true |- _ => apply N.ltb_lt in K
             | K : (_ <=? _)%N = true |- _ => apply N.leb_le in K
             end; lia.
Qed.

Lemma space_not_digit (c : ascii) : is_space c = true -> is_digit c = false.
Proof.
  unfold is_space, is_digit. generalize (code c). intros x H. codes.
Qed.

Ltac split_matches :=
  repeat match goal with
         | H : _ /\ _ |- _ => destruct H
         | H : exists _, _ |- _ => destruct H
         | H : _ \/ _ |- _ => destruct H
         end;
  subst.

Ltac digit_clash :=
  simpl mem in *;
  match goal with
  | Hn : is_digit ?ch = false, H : is_digit ?ch = true |- _ => congruence
  | Hn : is_digit ?ch = false, H : range ?a ?b ?ch = true |- _ =>
      apply (range_is_digit a b ch eq_refl eq_refl) in H; congruence
  | H1 : lit " " ?ch = true, H2 : range ?a ?b ?ch = true |- _ =>
      apply (range_is_digit a b ch eq_refl eq_refl) in H2;
      apply (lit_not_digit " " ch eq_refl) in H1; congruence
  end.

Ltac token_proof :=
  intros m m' x x' c c1 c1' Hm Hm' E (cx & rx & Ex & Hcx) (cx' & rx' & Ex' & Hcx');
  simpl in Hm, Hm'; split_matches; simpl in E;
  repeat match goal with
         | H : String _ _ = String _ _ |- _ => injection H as ? H; subst
         end;
  try (split; reflexivity); try digit_clash.

Lemma token_Y : token re_Y.
Proof. unfold re_Y, digit. token_proof. Qed.

Lemma token_m : token re_m.
Proof. unfold re_m, chr, rng. token_proof. Qed.

Lemma token_d : token re_d.
Proof. unfold re_d, chr, rng, digit. token_proof. Qed.

Lemma token_H : token re_H.
Proof. unfold re_H, chr, rng, digit. token_proof. Qed.

Lemma token_M : token re_M.
Proof. unfold re_M, rng, digit. token_proof. Qed.

Lemma token_S : token re_S.
Proof. unfold re_S, chr, rng, digit. token_proof. Qed.

Import Formats.

Lemma pattern_argument :
  pattern (S (String.length "%Y-%m-%d %H:%M:%S")) "%Y-%m-%d %H:%M:%S"
  = Some argument_regex.
Proof. reflexivity. Qed.

Lemma pattern_started :
  pattern (S (String.length "%Y-%m-%dT%H:%M:%S.%f")) "%Y-%m-%dT%H:%M:%S.%f"
  = Some started_regex.
Proof. reflexivity. Qed.

Lemma pattern_worklog :
  pattern (S (String.length "%Y-%m-%dT%H:%M:%S.%f-0600")) "%Y-%m-%dT%H:%M:%S.%f-0600"
  = Some worklog_regex.
Proof. reflexivity. Qed.

(** [strptime] with a format that compiles to [r]. *)
Lemma strptime_run (format : string) (r : regex) (s : string) :
  pattern (S (String.length format)) format = Some r ->
  strptime s format =
    match run r s [] with
    | Some (found, EmptyString) => datetime_of found
    | _ => inl ValueError
    end.
Proof.
  intros H. unfold strptime, re_match, run, datetime_of. rewrite H.
  destruct (rmatch r s [] _) as [[found [|c rest]]|]; reflexivity.
Qed.

Lemma strptime_inv (format : string) (r : regex) (s : string) (t : DateTime.datetime) :
  pattern (S (String.length format)) format = Some r ->
  strptime s format = inr t ->
  exists found, run r s [] = Some (found, "") /\ datetime_of found = inr t.
Proof.
  intros H E. rewrite (strptime_run format r s H) in E.
  destruct (run r s []) as [[found [|c rest]]|]; try discriminate. eauto.
Qed.

Lemma run_cat (r r' : regex) (s : string) (c : captures) :
  run (Cat r r') s c = rmatch r s c (fun _ s1 c1 => run r' s1 c1).
Proof. reflexivity. Qed.

Lemma run_cls (p : cls) (r' : regex) (ch : ascii) (x : string) (c : captures) :
  run (Cat (Cls p) r') (String ch x) c = if mem p ch then run r' x c else None.
Proof. reflexivity. Qed.

Lemma run_cls_head (p : cls) (r' : regex) (x : string) (c : captures) res :
  run (Cat (Cls p) r') x c = Some res ->
  exists ch x', x = String ch x' /\ mem p ch = true /\ run r' x' c = Some res.
Proof.
  destruct x as [|ch x']; [discriminate|]. rewrite run_cls.
  destruct (mem p ch) eqn:E; [|discriminate]. eauto.
Qed.

Lemma run_sound (r : regex) (s : string) (c c' : captures) (rest : string) :
  run r s c = Some (c', rest) -> exists m, s = m ++ rest /\ matches r m c c'.
Proof.
  intros H. apply rmatch_sound in H. destruct H as (m & rest' & c'' & -> & Hm & E).
  injection E as <- <-. eauto.
Qed.

(** A token then the rest of the pattern, when the rest asks for a
    character that is not a digit. *)
Lemma run_token (r r' : regex) (m x : string) (c c1 : captures) res :
  token r ->
  (forall x' c' res', run r' x' c' = Some res' -> nondigit_head x') ->
  matches r m c c1 -> run r' x c1 = Some res ->
  run (Cat r r') (m ++ x) c = Some res.
Proof.
  intros Ht Hn Hm Hr. rewrite run_cat.
  apply (token_exact r _ m x c c1 res Ht);
    [intros m' x' c' res' H; eapply Hn, H | exact Hm | exact Hr].
Qed.

(** *** Inversion of [matches] *)

Lemma matches_cat (r1 r2 : regex) (m : string) (c c' : captures) :
  matches (Cat r1 r2) m c c' ->
  exists m1 m2 c1, m = m1 ++ m2 /\ matches r1 m1 c c1 /\ matches r2 m2 c1 c'.
Proof. intros H. exact H. Qed.

Lemma matches_chr (a : ascii) (m : string) (c c' : captures) :
  matches (chr a) m c c' -> exists ch, m = String ch "" /\ lit a ch = true /\ c' = c.
Proof. intros [(ch & -> & H) ->]. eauto. Qed.

Lemma matches_eps (m : string) (c c' : captures) :
  matches Eps m c c' -> m = "" /\ c' = c.
Proof. intros H. exact H. Qed.

Lemma groupless_matches (r : regex) :
  groupless r = true ->
  forall m c c', matches r m c c' -> c' = c /\ forall c0, matches r m c0 c0.
Proof.
  induction r as [|p|r1 IH1 r2 IH2|r1 IH1 r2 IH2|p|p lo hi|n r IH];
    simpl; intros G m c c' H; try discriminate.
  - destruct H as [-> ->]. auto.
  - destruct H as [H ->]. auto.
  - apply andb_true_iff in G. destruct G as [G1 G2].
    destruct H as (m1 & m2 & c1 & -> & H1 & H2).
    destruct (IH1 G1 _ _ _ H1) as [-> K1]. destruct (IH2 G2 _ _ _ H2) as [-> K2].
    split; [reflexivity|]. intros c0. exists m1, m2, c0. auto.
  - apply andb_true_iff in G. destruct G as [G1 G2]. destruct H as [H|H].
    + destruct (IH1 G1 _ _ _ H) as [-> K]. auto.
    + destruct (IH2 G2 _ _ _ H) as [-> K]. auto.
  - destruct H as [H ->]. auto.
  - destruct H as [H ->]. auto.
Qed.

(** The groups a directive adds do not depend on the groups before. *)
Lemma group_matches (n : ascii) (r : regex) (m : string) (c c' : captures) :
  groupless r = true -> matches (Grp n r) m c c' ->
  c' = (n, m) :: c /\ forall c0, matches (Grp n r) m c0 ((n, m) :: c0).
Proof.
  intros G (c1 & H & ->). destruct (groupless_matches r G _ _ _ H) as [-> K].
  split; [reflexivity|]. intros c0. exists c0. auto.
Qed.

(** *** What follows a token *)

Lemma head_chr (a : ascii) (r' : regex) :
  not_a_digit a = true ->
  forall x' c' res', run (Cat (chr a) r') x' c' = Some res' -> nondigit_head x'.
Proof.
  intros Ha x' c' res' H. apply run_cls_head in H.
  destruct H as (ch & x'' & -> & Hch & _). exists ch, x''. split; [reflexivity|].
  apply (lit_not_digit a ch Ha Hch).
Qed.

Lemma head_spaces (r' : regex) :
  forall x' c' res', run (Cat (Plus Space) r') x' c' = Some res' -> nondigit_head x'.
Proof.
  intros x' c' res' H. rewrite run_cat in H. simpl in H.
  destruct x' as [|ch x'']; [discriminate|].
  destruct (is_space ch) eqn:E; [|discriminate].
  exists ch, x''. split; [reflexivity|]. apply space_not_digit, E.
Qed.

(** *** The date and the time of a format, forwards *)

Lemma run_date (r' : regex) (mY mm md x : string) (c1 c2 : ascii) (c : captures) res :
  matches re_Y mY c (("Y"%char, mY) :: c) ->
  matches re_m mm (("Y"%char, mY) :: c) (("m"%char, mm) :: ("Y"%char, mY) :: c) ->
  matches re_d md (("m"%char, mm) :: ("Y"%char, mY) :: c)
          (("d"%char, md) :: ("m"%char, mm) :: ("Y"%char, mY) :: c) ->
  lit "-" c1 = true -> lit "-" c2 = true ->
  (forall x' c' res', run r' x' c' = Some res' -> nondigit_head x') ->
  run r' x (("d"%char, md) :: ("m"%char, mm) :: ("Y"%char, mY) :: c) = Some res ->
  run (Cat re_Y (Cat (chr "-") (Cat re_m (Cat (chr "-") (Cat re_d r')))))
      (mY ++ String c1 (mm ++ String c2 (md ++ x))) c = Some res.
Proof.
  intros HY Hm Hd H1 H2 Hn Hr.
  eapply run_token; [apply token_Y | apply head_chr; reflexivity | exact HY |].
  unfold chr at 1. rewrite run_cls. simpl mem. rewrite H1.
  eapply run_token; [apply token_m | apply head_chr; reflexivity | exact Hm |].
  unfold chr at 1. rewrite run_cls. simpl mem. rewrite H2.
  eapply run_token; [apply token_d | exact Hn | exact Hd | exact Hr].
Qed.

Lemma run_time (r' : regex) (mH mM mS x : string) (c1 c2 : ascii) (c : captures) res :
  matches re_H mH c (("H"%char, mH) :: c) ->
  matches re_M mM (("H"%char, mH) :: c) (("M"%char, mM) :: ("H"%char, mH) :: c) ->
  matches re_S mS (("M"%char, mM) :: ("H"%char, mH) :: c)
          (("S"%char, mS) :: ("M"%char, mM) :: ("H"%char, mH) :: c) ->
  lit ":" c1 = true -> lit ":" c2 = true ->
  (forall x' c' res', run r' x' c' = Some res' -> nondigit_head x') ->
  run r' x (("S"%char, mS) :: ("M"%char, mM) :: ("H"%char, mH) :: c) = Some res ->
  run (Cat re_H (Cat (chr ":") (Cat re_M (Cat (chr ":") (Cat re_S r')))))
      (mH ++ String c1 (mM ++ String c2 (mS ++ x))) c = Some res.
Proof.
  intros HH HM HS H1 H2 Hn Hr.
  eapply run_token; [apply token_H | apply head_chr; reflexivity | exact HH |].
  unfold chr at 1. rewrite run_cls. simpl mem. rewrite H1.
  eapply run_token; [apply token_M | apply head_chr; reflexivity | exact HM |].
  unfold chr at 1. rewrite run_cls. simpl mem. rewrite H2.
  eapply run_token; [apply token_S | exact Hn | exact HS | exact Hr].
Qed.

Lemma rep_whole {R : Type} (p : cls) (m : string) :
  forall (lo hi : nat) (k : string -> string -> option R) (res : R),
    (lo <= String.length m <= hi)%nat -> all_in p m -> k m "" = Some res ->
    rep p lo hi m k = Some res.
Proof.
  induction m as [|ch m IH]; intros lo hi k res Hlen Hm Hk; simpl in *.
  - assert (lo = O) by lia. subst lo. destruct hi; simpl; exact Hk.
  - destruct Hm as [Hch Hm]. destruct hi as [|hi]; [lia|]. simpl. rewrite Hch.
    rewrite (IH (pred lo) hi (fun m0 r => k (String ch m0) r) res); auto. lia.
Qed.

Lemma run_f_last (mf : string) (c : captures) :
  (1 <= String.length mf <= 6)%nat -> all_in Digit mf ->
  run (Cat re_f Eps) mf c = Some (("f"%char, mf) :: c, "").
Proof.
  intros Hlen Hm. rewrite run_cat. unfold re_f. cbn [rmatch].
  apply rep_whole; auto.
Qed.

(** *** The timestamp of a work item *)

Lemma any_Y m c c' :
  matches re_Y m c c' -> c' = ("Y"%char, m) :: c /\ forall c0, matches re_Y m c0 (("Y"%char, m) :: c0).
Proof. apply group_matches. reflexivity. Qed.

Lemma any_m m c c' :
  matches re_m m c c' -> c' = ("m"%char, m) :: c /\ forall c0, matches re_m m c0 (("m"%char, m) :: c0).
Proof. apply group_matches. reflexivity. Qed.

Lemma any_d m c c' :
  matches re_d m c c' -> c' = ("d"%char, m) :: c /\ forall c0, matches re_d m c0 (("d"%char, m) :: c0).
Proof. apply group_matches. reflexivity. Qed.

Lemma any_H m c c' :
  matches re_H m c c' -> c' = ("H"%char, m) :: c /\ forall c0, matches re_H m c0 (("H"%char, m) :: c0).
Proof. apply group_matches. reflexivity. Qed.

Lemma any_M m c c' :
  matches re_M m c c' -> c' = ("M"%char, m) :: c /\ forall c0, matches re_M m c0 (("M"%char, m) :: c0).
Proof. apply group_matches. reflexivity. Qed.

Lemma any_S m c c' :
  matches re_S m c c' -> c' = ("S"%char, m) :: c /\ forall c0, matches re_S m c0 (("S"%char, m) :: c0).
Proof. apply group_matches. reflexivity. Qed.

Lemma any_f m c c' :
  matches re_f m c c' ->
  c' = ("f"%char, m) :: c /\ (1 <= String.length m <= 6)%nat /\ all_in Digit m.
Proof. unfold re_f. simpl. intros H. split_matches. auto. Qed.

Ltac token_of H lem m c A :=
  apply matches_cat in H;
  let K := fresh in
  destruct H as (m & ? & c & -> & K & H);
  destruct (lem _ _ _ K) as [-> A]; clear K.

Ltac char_of H ch L :=
  apply matches_cat in H;
  let K := fresh in
  destruct H as (? & ? & ? & -> & K & H);
  apply matches_chr in K; destruct K as (ch & -> & L & ->).

(** A string that [strptime] converts with the format of the work
    logs is a timestamp followed by [-0600]. *)
Lemma worklog_parts (s : string) (found : captures) :
  run worklog_regex s [] = Some (found, "") ->
  exists p, s = stamp p "-0600" /\ well_parts p /\ found = groups p.
Proof.
  intros H. apply run_sound in H. destruct H as (m & -> & H). rewrite append_empty_r.
  unfold worklog_regex, date_time in H.
  token_of H any_Y mY cY AY. char_of H c1 L1.
  token_of H any_m mm cm Am. char_of H c2 L2.
  token_of H any_d md cd Ad. char_of H cT LT.
  token_of H any_H mH cH AH. char_of H c3 L3.
  token_of H any_M mM cM AM. char_of H c4 L4.
  token_of H any_S mS cS AS. char_of H c5 L5.
  apply matches_cat in H. destruct H as (mf & ? & cf & -> & Hf & H).
  apply any_f in Hf. destruct Hf as (-> & Hlen & Hdig).
  char_of H c6 L6. char_of H c7 L7. char_of H c8 L8. char_of H c9 L9.
  apply matches_cat in H. destruct H as (? & ? & ? & -> & K & H).
  apply matches_chr in K. destruct K as (c10 & -> & L10 & ->).
  apply matches_eps in H. destruct H as [-> ->].
  apply (lit_exact "-" c1 eq_refl) in L1. apply (lit_exact "-" c2 eq_refl) in L2.
  apply (lit_exact ":" c3 eq_refl) in L3. apply (lit_exact ":" c4 eq_refl) in L4.
  apply (lit_exact "." c5 eq_refl) in L5. apply (lit_exact "-" c6 eq_refl) in L6.
  apply (lit_exact "0" c7 eq_refl) in L7. apply (lit_exact "6" c8 eq_refl) in L8.
  apply (lit_exact "0" c9 eq_refl) in L9. apply (lit_exact "0" c10 eq_refl) in L10.
  subst.
  exists {| pY := mY; pm := mm; pd := md; pT := cT;
            pH := mH; pM := mM; pS := mS; pf := mf |}.
  split; [reflexivity|]. split; [|reflexivity].
  unfold well_parts. simpl. auto 12.
Qed.

Lemma started_parts (p : parts) :
  well_parts p -> run started_regex (stamp p "") [] = Some (groups p, "").
Proof.
  intros (AY & Am & Ad & LT & AH & AM & AS & Hlen & Hdig).
  unfold started_regex, date_time, stamp, groups.
  apply run_date; auto; [apply head_chr; reflexivity|].
  unfold chr at 1. rewrite run_cls. simpl mem. rewrite LT.
  apply run_time; auto; [apply head_chr; reflexivity|].
  unfold chr at 1. rewrite run_cls. simpl mem.
  change (lit "." ".") with true. cbv iota.
  rewrite append_empty_r. apply run_f_last; assumption.
Qed.

Lemma stamp_append (p : parts) (a b : string) : stamp p (a ++ b) = stamp p a ++ b.
Proof.
  unfold stamp. repeat (rewrite append_assoc; simpl). reflexivity.
Qed.

Lemma rfind_last (c : ascii) (z : string) (x : string) :
  rfind c z = -1 -> rfind c (x ++ String c z) = Z.of_nat (String.length x).
Proof.
  intros Hz. induction x as [|a x IH].
  - simpl. rewrite Hz. simpl. now rewrite N.eqb_refl.
  - cbn [append rfind String.length]. rewrite IH.
    destruct (0 <=? Z.of_nat (String.length x)) eqn:E; [lia|].
    apply Z.leb_gt in E. lia.
Qed.

Lemma substring_prefix (x y : string) : substring 0 (String.length x) (x ++ y) = x.
Proof.
  induction x as [|a x IH]; simpl.
  - destruct y; reflexivity.
  - now rewrite IH.
Qed.

Lemma slice_to_prefix (x y : string) :
  slice_to (x ++ y) (Z.of_nat (String.length x)) = x.
Proof.
  unfold slice_to. rewrite length_append.
  destruct (Z.of_nat (String.length x) <? 0) eqn:E; [apply Z.ltb_lt in E; lia|].
  rewrite Z.min_l by lia. rewrite Nat2Z.id. apply substring_prefix.
Qed.

Lemma slice_stamp (p : parts) :
  slice_to (stamp p "-0600") (rfind "-" (stamp p "-0600")) = stamp p "".
Proof.
  change "-0600" with ("" ++ "-0600"). rewrite stamp_append.
  rewrite (rfind_last "-" "0600" (stamp p "") eq_refl).
  apply slice_to_prefix.
Qed.

(** The second conversion of the start of a work item, of the text
    before the last [-], succeeds when the first does and gives the same
    datetime. *)
Lemma strptime_started (s : string) (t : DateTime.datetime) :
  strptime s "%Y-%m-%dT%H:%M:%S.%f-0600" = inr t ->
  strptime (slice_to s (rfind "-" s)) "%Y-%m-%dT%H:%M:%S.%f" = inr t.
Proof.
  intros H. apply (strptime_inv _ _ _ _ pattern_worklog) in H.
  destruct H as (found & H & Ht).
  apply worklog_parts in H. destruct H as (p & -> & Hp & ->).
  rewrite slice_stamp, (strptime_run _ _ _ pattern_started), (started_parts p Hp).
  exact Ht.
Qed.

End StrptimeFacts.

(** ** The order of datetimes *)

Lemma lex_antisym (x y : list Z) : lex x y = CompOpp (lex y x).
Proof.
  revert y. induction x as [|a x IH]; intros [|b y]; simpl; try reflexivity.
  rewrite (Z.compare_antisym b a).
  destruct (b ?= a); simpl; auto.
Qed.

Lemma lex_refl (x : list Z) : lex x x = Eq.
Proof. induction x as [|a x IH]; simpl; [reflexivity|]. now rewrite Z.compare_refl. Qed.

Lemma gt_lt (t u : datetime) : gt t u = lt u t.
Proof.
  unfold gt, lt, DateTime.compare. rewrite (lex_antisym (fields t) (fields u)).
  destruct (lex (fields u) (fields t)); reflexivity.
Qed.

Lemma lt_irrefl (t : datetime) : lt t t = false.
Proof. unfold lt, DateTime.compare. now rewrite lex_refl. Qed.

Lemma in_window_inside (a : arguments) (t : datetime) : in_window a t = inside a t.
Proof.
  unfold in_window, inside, lt. rewrite gt_lt. unfold lt.
  destruct (DateTime.compare (start_datetime a) t), (DateTime.compare t (end_datetime a));
    reflexivity.
Qed.



(** ** [developer_hours] *)

Lemma getitem_setitem (d : dict) (k k' : string) (v : num) :
  (exists v0, getitem d k = inr v0) ->
  getitem (setitem d k v) k' = if String.eqb k k' then inr v else getitem d k'.
Proof.
  intros [v0 H]. induction d as [|[k0 v1] d IH]; simpl in *; [discriminate|].
  destruct (String.eqb k0 k) eqn:E0.
  - apply String.eqb_eq in E0. subst k0. simpl.
    destruct (String.eqb k k'); reflexivity.
  - simpl. destruct (String.eqb k0 k') eqn:E1.
    + apply String.eqb_eq in E1. subst k0.
      rewrite String.eqb_sym, E0. reflexivity.
    + apply IH, H.
Qed.

Lemma keys_setitem (d : dict) (k : string) (v : num) :
  (exists v0, getitem d k = inr v0) -> map fst (setitem d k v) = map fst d.
Proof.
  intros [v0 H]. induction d as [|[k0 v1] d IH]; simpl in *; [discriminate|].
  destruct (String.eqb k0 k); simpl; [reflexivity|]. now rewrite IH.
Qed.

Lemma known_credit (d : dict) (w w' : work_item) :
  known d w -> known d w' -> known (credit d w) w'.
Proof.
  intros Hw [v' Hw']. unfold known, credit. rewrite getitem_setitem by exact Hw.
  destruct (String.eqb _ _); eauto.
Qed.

(** ** One work item *)

Lemma started_datetime_ok (w : work_item) (t : datetime) :
  work_datetime w = inr t -> started_datetime w = inr t.
Proof. apply StrptimeFacts.strptime_started. Qed.

Lemma log_work_unparsed header detail a w st e :
  work_datetime w = inl e -> log_work header detail a w st = raise e.
Proof. intros H. destruct st as [f d]. unfold log_work. rewrite H. reflexivity. Qed.

Lemma log_work_outside header detail a w st :
  counted a w = false -> (exists t, work_datetime w = inr t) ->
  log_work header detail a w st = ret st.
Proof.
  intros H [t Ht]. destruct st as [f d]. unfold counted in H. unfold log_work.
  rewrite Ht in *. simpl. rewrite in_window_inside, H. reflexivity.
Qed.

Lemma log_work_unknown header detail a w f d :
  counted a w = true -> well_formed w -> ~ known d w ->
  log_work header detail a w (f, d) =
    (((if f && arg_detailed a then [Stdout header] else [])
      ++ (if arg_detailed a then [detail_line detail w] else []))%list,
     inl (KeyError (author_displayName w))).
Proof.
  intros H [t Ht] Hk. pose proof (started_datetime_ok w t Ht) as Ht'.
  unfold counted in H. unfold log_work, detail_line.
  rewrite Ht in *. simpl. rewrite in_window_inside, H.
  assert (Hg : getitem d (author_displayName w) = inl (KeyError (author_displayName w))).
  { clear - Hk. unfold known in Hk. induction d as [|[k0 v0] d IH]; simpl in *; [reflexivity|].
    destruct (String.eqb k0 (author_displayName w)); [exfalso; eauto | auto]. }
  rewrite Ht', Hg. destruct f, (arg_detailed a); reflexivity.
Qed.

Lemma log_work_counted header detail a w f d :
  counted a w = true -> well_formed w -> known d w ->
  log_work header detail a w (f, d) =
    (((if f && arg_detailed a then [Stdout header] else [])
      ++ (if arg_detailed a then [detail_line detail w] else []))%list,
     inr (f && negb (arg_detailed a), credit d w)).
Proof.
  intros H [t Ht] [v Hv]. pose proof (started_datetime_ok w t Ht) as Ht'.
  unfold counted in H.
  unfold log_work, detail_line, credit, value.
  rewrite Ht in *. simpl. rewrite in_window_inside, H, Ht', Hv.
  destruct f, (arg_detailed a); reflexivity.
Qed.

(** ** One work log *)

Lemma clean_cons a d w ws :
  clean a d (w :: ws) ->
  well_formed w /\ (counted a w = true -> known d w) /\ clean a d ws.
Proof.
  intros H. split; [apply H; now left|]. split; [apply H; now left|].
  intros w' Hw'. apply H. now right.
Qed.

Lemma clean_credit a d w ws : known d w -> clean a d ws -> clean a (credit d w) ws.
Proof.
  intros Hw H w' Hw'. destruct (H w' Hw') as [Hwf Hk]. split; [exact Hwf|].
  intros Hc. apply known_credit; auto.
Qed.

Lemma clean_app a d ws ws' : clean a d (ws ++ ws') <-> clean a d ws /\ clean a d ws'.
Proof.
  unfold clean. split.
  - intros H. split; intros w Hw; apply H, in_or_app; auto.
  - intros [H1 H2] w Hw. apply in_app_or in Hw. destruct Hw; auto.
Qed.

Lemma keys_credit d w : known d w -> map fst (credit d w) = map fst d.
Proof. intros H. apply keys_setitem, H. Qed.

Lemma known_keys d d' w : map fst d = map fst d' -> known d w -> known d' w.
Proof.
  unfold known. generalize (author_displayName w) as k. intros k.
  revert d'. induction d as [|[k0 v0] d IH]; intros [|[k1 v1] d'] E [v H];
    simpl in *; try discriminate.
  injection E as -> E. destruct (String.eqb k1 k); eauto.
Qed.

Lemma clean_keys a d d' ws : map fst d = map fst d' -> clean a d ws -> clean a d' ws.
Proof.
  intros E H w Hw. destruct (H w Hw) as [Hwf Hk]. split; [exact Hwf|].
  intros Hc. eapply known_keys; eauto.
Qed.

Lemma tally_keys a ws : forall d,
  clean a d ws -> map fst (tally a ws d) = map fst d.
Proof.
  unfold tally. induction ws as [|w ws IH]; intros d H; simpl; [reflexivity|].
  apply clean_cons in H. destruct H as (Hwf & Hk & H).
  destruct (counted a w) eqn:Hc; simpl; [|auto].
  rewrite IH by (apply clean_credit; auto). apply keys_credit; auto.
Qed.

Lemma for_each_log_work header detail a ws : forall f d,
  clean a d ws ->
  for_each (log_work header detail a) ws (f, d) =
    ((if arg_detailed a
      then if f then detailed_lines header detail a ws
           else map (detail_line detail) (filter (counted a) ws)
      else []),
     inr (f && negb (arg_detailed a && existsb (counted a) ws), tally a ws d)).
Proof.
  unfold tally. induction ws as [|w ws IH]; intros f d H.
  - simpl. unfold ret, detailed_lines. simpl.
    rewrite andb_false_r, andb_true_r. destruct (arg_detailed a), f; reflexivity.
  - apply clean_cons in H. destruct H as (Hwf & Hk & H).
    rewrite for_each_cons.
    destruct (counted a w) eqn:Hc.
    + rewrite (bind_value _ _ _ _ (log_work_counted header detail a w f d Hc Hwf (Hk eq_refl))).
      rewrite IH by (apply clean_credit; auto).
      unfold detailed_lines. simpl. rewrite Hc. simpl.
      rewrite andb_true_r.
      destruct (arg_detailed a), f; simpl; reflexivity.
    + rewrite (log_work_outside header detail a w (f, d) Hc Hwf), bind_ret.
      rewrite IH by exact H. unfold detailed_lines. simpl. rewrite Hc. reflexivity.
Qed.

Lemma log_worklog_clean key header detail a ws d :
  clean a d ws ->
  log_worklog key header detail a ws d =
    (JiraWorklogs key ::
       (if arg_detailed a then detailed_lines header detail a ws else []),
     inr (tally a ws d)).
Proof.
  intros H. unfold log_worklog.
  unfold emit at 1. unfold bind at 1.
  rewrite (for_each_log_work header detail a ws true d H). simpl.
  rewrite app_nil_r. reflexivity.
Qed.

(** ** Issues and subtasks *)

Lemma tally_app a ws ws' d : tally a (ws ++ ws') d = tally a ws' (tally a ws d).
Proof. unfold tally. now rewrite filter_app, fold_left_app. Qed.

Lemma clean_tally a d ws ws' : clean a d ws -> clean a d ws' -> clean a (tally a ws d) ws'.
Proof. intros H H'. eapply clean_keys; [symmetry; apply tally_keys; exact H | exact H']. Qed.

Lemma for_each_log_subtask a ts : forall d,
  clean a d (flat_map subtask_worklog ts) ->
  for_each (log_subtask a) ts d =
    (flat_map (subtask_events a) ts, inr (tally a (flat_map subtask_worklog ts) d)).
Proof.
  induction ts as [|t ts IH]; intros d H; [reflexivity|].
  simpl in H. apply clean_app in H. destruct H as [H1 H2].
  rewrite for_each_cons. unfold log_subtask at 1.
  rewrite (bind_value _ _ _ _ (log_worklog_clean _ _ _ a _ d H1)).
  rewrite IH by (apply clean_tally; assumption).
  simpl. rewrite tally_app. reflexivity.
Qed.

Lemma log_issue_clean a i d :
  clean a d (issue_items i) ->
  log_issue a i d = (issue_events a i, inr (tally a (issue_items i) d)).
Proof.
  unfold issue_items. intros H. apply clean_app in H. destruct H as [H1 H2].
  unfold log_issue.
  rewrite (bind_value _ _ _ _ (log_worklog_clean _ _ _ a _ d H1)).
  rewrite for_each_log_subtask by (apply clean_tally; assumption).
  simpl. rewrite tally_app. reflexivity.
Qed.

Lemma for_each_log_issue a issues : forall d,
  clean a d (flat_map issue_items issues) ->
  for_each (log_issue a) issues d =
    (flat_map (issue_events a) issues, inr (tally a (flat_map issue_items issues) d)).
Proof.
  induction issues as [|i issues IH]; intros d H; [reflexivity|].
  simpl in H. apply clean_app in H. destruct H as [H1 H2].
  rewrite for_each_cons.
  rewrite (bind_value _ _ _ _ (log_issue_clean a i d H1)).
  rewrite IH by (apply clean_tally; assumption).
  simpl. rewrite tally_app. reflexivity.
Qed.


(** ** Runs that may fail *)

Lemma snd_bind {A B : Type} (m : M A) (f : A -> M B) :
  snd (bind m f) = match snd m with inl e => inl e | inr x => snd (f x) end.
Proof. destruct m as [t [e|x]]; simpl; [reflexivity|]. destruct (f x). reflexivity. Qed.

Lemma fst_bind {A B : Type} (m : M A) (f : A -> M B) :
  fst (bind m f)
  = (fst m ++ match snd m with inl _ => [] | inr x => fst (f x) end)%list.
Proof.
  destruct m as [t [e|x]]; simpl; [now rewrite app_nil_r|]. destruct (f x). reflexivity.
Qed.

Lemma bind_events {A B : Type} (P : event -> Prop) (m : M A) (f : A -> M B) :
  Forall P (fst m) -> (forall x, Forall P (fst (f x))) -> Forall P (fst (bind m f)).
Proof.
  intros Hm Hf. rewrite fst_bind. apply Forall_app. split; [exact Hm|].
  destruct (snd m); [constructor | apply Hf].
Qed.

Lemma for_each_events {A S : Type} (P : event -> Prop) (body : A -> S -> M S) (xs : list A) :
  (forall x st, Forall P (fst (body x st))) -> forall st, Forall P (fst (for_each body xs st)).
Proof.
  intros Hb. induction xs as [|x xs IH]; intros st; simpl; [constructor|].
  apply bind_events; auto.
Qed.

Lemma log_work_step header detail a w f d :
  match step a w d with
  | inl e => snd (log_work header detail a w (f, d)) = inl e
  | inr d' => exists f', snd (log_work header detail a w (f, d)) = inr (f', d')
  end.
Proof.
  unfold step, log_work. destruct (work_datetime w) as [e|t] eqn:Ht; [reflexivity|].
  simpl. rewrite in_window_inside. destruct (inside a t); [|simpl; eauto].
  rewrite (started_datetime_ok w t Ht).
  destruct (getitem d (author_displayName w)) as [e|v];
    destruct f, (arg_detailed a); simpl; eauto.
Qed.

Lemma log_work_events header detail a w st :
  work_lines header detail -> Forall work_event (fst (log_work header detail a w st)).
Proof.
  intros [Hh Hd]. destruct st as [f d]. unfold log_work.
  destruct (work_datetime w) as [e|t]; [constructor|].
  simpl. destruct (in_window a t); [|constructor].
  destruct (started_datetime w) as [e'|t'];
    destruct (getitem d (author_displayName w)) as [e|v];
    destruct f, (arg_detailed a); simpl; repeat constructor; auto.
Qed.

Lemma for_each_log_work_steps header detail a ws : forall f d,
  match steps a ws d with
  | inl e => snd (for_each (log_work header detail a) ws (f, d)) = inl e
  | inr d' => exists f', snd (for_each (log_work header detail a) ws (f, d)) = inr (f', d')
  end.
Proof.
  induction ws as [|w ws IH]; intros f d; simpl steps.
  - simpl. eauto.
  - rewrite for_each_cons, snd_bind.
    pose proof (log_work_step header detail a w f d) as Hw.
    destruct (step a w d) as [e|d'].
    + now rewrite Hw.
    + destruct Hw as [f' ->]. apply IH.
Qed.

Lemma log_worklog_steps key header detail a ws d :
  snd (log_worklog key header detail a ws d) = steps a ws d.
Proof.
  unfold log_worklog. rewrite snd_bind. simpl snd at 2. cbv iota. rewrite snd_bind.
  pose proof (for_each_log_work_steps header detail a ws true d) as H.
  destruct (steps a ws d) as [e|d'].
  - now rewrite H.
  - destruct H as [f' ->]. reflexivity.
Qed.

Lemma log_worklog_events key header detail a ws d :
  work_lines header detail ->
  Forall work_event (fst (log_worklog key header detail a ws d)).
Proof.
  intros H. unfold log_worklog. apply bind_events; [repeat constructor|]. intros _.
  apply bind_events; [|intros; constructor].
  apply for_each_events. intros. apply log_work_events, H.
Qed.

Lemma steps_app a ws ws' d :
  steps a (ws ++ ws') d
  = match steps a ws d with inl e => inl e | inr d' => steps a ws' d' end.
Proof.
  revert d. induction ws as [|w ws IH]; intros d; simpl; [reflexivity|].
  destruct (step a w d); [reflexivity | apply IH].
Qed.

Lemma for_each_log_subtask_steps a ts : forall d,
  snd (for_each (log_subtask a) ts d) = steps a (flat_map subtask_worklog ts) d.
Proof.
  induction ts as [|t ts IH]; intros d; [reflexivity|].
  rewrite for_each_cons, snd_bind. unfold log_subtask at 1.
  rewrite log_worklog_steps. simpl flat_map. rewrite steps_app.
  destruct (steps a (subtask_worklog t) d); [reflexivity | apply IH].
Qed.

Lemma log_issue_steps a i d : snd (log_issue a i d) = steps a (issue_items i) d.
Proof.
  unfold log_issue, issue_items. rewrite snd_bind, log_worklog_steps, steps_app.
  destruct (steps a (issue_worklog i) d); [reflexivity|].
  apply for_each_log_subtask_steps.
Qed.

Lemma log_issue_events a i d : Forall work_event (fst (log_issue a i d)).
Proof.
  unfold log_issue. apply bind_events.
  - apply log_worklog_events. split; simpl; auto.
  - intros d'. apply for_each_events. intros t d''. unfold log_subtask.
    apply log_worklog_events. split; simpl; auto.
Qed.

Lemma for_each_log_issue_steps a issues : forall d,
  snd (for_each (log_issue a) issues d) = steps a (all_items issues) d.
Proof.
  unfold all_items. induction issues as [|i issues IH]; intros d; [reflexivity|].
  rewrite for_each_cons, snd_bind, log_issue_steps. simpl flat_map. rewrite steps_app.
  destruct (steps a (issue_items i) d); [reflexivity | apply IH].
Qed.

Lemma for_each_log_issue_events a issues d :
  Forall work_event (fst (for_each (log_issue a) issues d)).
Proof. apply for_each_events. intros. apply log_issue_events. Qed.

(** ** The report and [main] *)

Lemma for_each_report_developer d : forall total,
  for_each report_developer d total
  = (map developer_line d, inr (fold_left add (map snd d) total)).
Proof.
  induction d as [|entry d IH]; intros total; [reflexivity|].
  rewrite for_each_cons. unfold report_developer at 1.
  unfold print, emit, ret, bind. cbn [app]. rewrite IH. reflexivity.
Qed.

Lemma report_closed a d :
  report a d
  = (report_events a d,
     match percent_effort (grand_total d) d with
     | inl e => inl e
     | inr _ => inr tt
     end).
Proof.
  unfold report, report_events, grand_total, print, emit.
  unfold bind at 1. rewrite (bind_value _ _ _ _ (for_each_report_developer d (PyInt 0))).
  cbn [fst snd]. unfold lift.
  destruct (percent_effort (fold_left add (map snd d) (PyInt 0)) d) as [e|k];
    simpl; rewrite ?app_nil_r; reflexivity.
Qed.

Lemma emit_bind {B : Type} (ev : event) (f : unit -> M B) :
  bind (emit ev) f = (ev :: fst (f tt), snd (f tt)).
Proof. unfold emit, bind. destruct (f tt). reflexivity. Qed.

Lemma main_parsed argparse prog args issues t0 a :
  parse_args argparse prog args = (t0, inr a) ->
  let logged := bind (for_each (log_issue a) issues developer_hours_init) (report a) in
  main argparse prog args issues
  = ((t0 ++ JiraConnect :: JiraSearchIssues :: fst logged)%list, snd logged).
Proof.
  intros H logged. unfold main, main_parse_args. rewrite H.
  erewrite bind_value by reflexivity. rewrite !emit_bind. reflexivity.
Qed.

Lemma strptime_error s format e : strptime s format = inl e -> e = ValueError.
Proof.
  unfold strptime, make.
  destruct (pattern _ format); [|congruence].
  destruct (Re.re_match _ s) as [[found [|c rest]]|]; try congruence.
  destruct (_ && _); congruence.
Qed.

Lemma step_error a w d e : step a w d = inl e -> is_Exception e = true.
Proof.
  unfold step. destruct (work_datetime w) as [e'|t] eqn:Ht.
  - intros H. injection H as <-. apply strptime_error in Ht. now subst.
  - destruct (inside a t); [|discriminate].
    destruct (getitem d (author_displayName w)) as [e'|v] eqn:Hg; [|discriminate].
    intros H. injection H as <-. clear - Hg.
    induction d as [|[k v] d IH]; simpl in Hg.
    + injection Hg as <-. reflexivity.
    + destruct (String.eqb k (author_displayName w)); [discriminate | auto].
Qed.

Lemma steps_error a ws : forall d e, steps a ws d = inl e -> is_Exception e = true.
Proof.
  induction ws as [|w ws IH]; intros d e; simpl; [discriminate|].
  destruct (step a w d) as [e'|d'] eqn:Hs; [|apply IH].
  intros H. injection H as <-. eapply step_error, Hs.
Qed.

(** A run in which a work item raises: the events of the work logs up
    to there, then the traceback, and status 1. *)
Lemma run_failure argparse prog args issues t0 a e :
  parse_args argparse prog args = (t0, inr a) ->
  steps a (all_items issues) developer_hours_init = inl e ->
  exists tl,
    run argparse prog args issues
    = ((t0 ++ JiraConnect :: JiraSearchIssues :: tl ++ [Stderr (Traceback e)])%list, 1)
    /\ Forall work_event tl.
Proof.
  intros Hp Hs. pose proof (steps_error _ _ _ _ Hs) as He.
  pose proof (for_each_log_issue_steps a issues developer_hours_init) as H1.
  pose proof (for_each_log_issue_events a issues developer_hours_init) as H2.
  rewrite Hs in H1.
  destruct (for_each (log_issue a) issues developer_hours_init) as [tl r] eqn:E.
  simpl in H1, H2. subst r. exists tl. split; [|exact H2].
  unfold run. rewrite (main_parsed _ _ _ _ _ _ Hp). rewrite E. simpl.
  destruct e; try discriminate; rewrite <- app_assoc; reflexivity.
Qed.

(** A run in which no work item raises. *)
Lemma run_clean argparse prog args issues t0 a :
  parse_args argparse prog args = (t0, inr a) ->
  clean a developer_hours_init (all_items issues) ->
  let d := tally a (all_items issues) developer_hours_init in
  main argparse prog args issues
  = ((t0 ++ JiraConnect :: JiraSearchIssues
         :: flat_map (issue_events a) issues ++ report_events a d)%list,
     match percent_effort (grand_total d) d with
     | inl e => inl e
     | inr _ => inr tt
     end).
Proof.
  intros Hp Hc d. rewrite (main_parsed _ _ _ _ _ _ Hp).
  rewrite (for_each_log_issue a issues developer_hours_init Hc).
  fold (all_items issues). fold d.
  erewrite bind_value by reflexivity. rewrite report_closed. reflexivity.
Qed.

(** * The claims *)

(** ** The command line *)

(** C9: when the number of arguments, the name of the program included,
    is neither 5 nor 6, the only event of the run is the usage message on
    standard error and the status is 255: no date is validated and Jira is
    not called. *)
Theorem usage_on_wrong_argument_count
        (argparse : list string -> M namespace) (prog : string) (args : list string)
        (jira_issues : list issue) :
  Z.of_nat (List.length (prog :: args)) <> 5 ->
  Z.of_nat (List.length (prog :: args)) <> 6 ->
  parse_args argparse prog args = ([Stderr (Usage prog)], inl (SystemExit (-1)))
  /\ run argparse prog args jira_issues = ([Stderr (Usage prog)], 255).
Proof.
  intros H5 H6.
  assert (Hp : parse_args argparse prog args = ([Stderr (Usage prog)], inl (SystemExit (-1)))).
  { unfold parse_args.
    destruct (Z.eqb_spec (Z.of_nat (List.length (prog :: args))) 5); [contradiction|].
    destruct (Z.eqb_spec (Z.of_nat (List.length (prog :: args))) 6); [contradiction|].
    reflexivity. }
  split; [exact Hp|].
  unfold run, main, main_parse_args. rewrite Hp. reflexivity.
Qed.

Lemma usage_on_wrong_argument_count_witness :
  parse_args argparse_simple "hours" ["-startdate"; "2023-01-01"]
  = ([Stderr (Usage "hours")], inl (SystemExit (-1)))
  /\ run argparse_simple "hours" ["-startdate"; "2023-01-01"] [one_issue [worked "Greg Thain" 3600]]
     = ([Stderr (Usage "hours")], 255).
Proof.
  apply (usage_on_wrong_argument_count argparse_simple "hours" ["-startdate"; "2023-01-01"]);
    simpl; lia.
Defined.

(** ** The window *)




(** ** Unknown authors *)

Lemma step_counted a w d :
  counted a w = true -> known d w -> step a w d = inr (credit d w).
Proof.
  unfold counted, step, credit, value. intros Hc [v Hv].
  destruct (work_datetime w) as [e|t]; [discriminate|]. now rewrite Hc, Hv.
Qed.

Lemma step_outside a w d :
  counted a w = false -> well_formed w -> step a w d = inr d.
Proof.
  unfold counted, step. intros Hc [t Ht]. rewrite Ht in *. now rewrite Hc.
Qed.

Lemma steps_clean a ws : forall d, clean a d ws -> steps a ws d = inr (tally a ws d).
Proof.
  unfold tally. induction ws as [|w ws IH]; intros d H; simpl; [reflexivity|].
  apply clean_cons in H. destruct H as (Hwf & Hk & H).
  destruct (counted a w) eqn:Hc.
  - rewrite (step_counted a w d Hc (Hk eq_refl)).
    apply IH, clean_credit; auto.
  - rewrite (step_outside a w d Hc Hwf). apply IH, H.
Qed.




(** ** Detailed mode *)


Lemma clean_b_sound a d ws : clean_b a d ws = true -> clean a d ws.
Proof.
  unfold clean_b, clean. rewrite forallb_forall. intros H w Hw. specialize (H w Hw).
  unfold well_formed, counted, known. destruct (work_datetime w) as [e|t]; [discriminate|].
  split; [eauto|]. intros Hi. rewrite Hi in H.
  destruct (getitem d (author_displayName w)); [discriminate | eauto].
Qed.


(** ** The timestamps of the work logs *)

Lemma append_cons_assoc (x : string) (c : ascii) (y z : string) :
  x ++ String c (y ++ z) = (x ++ String c y) ++ z.
Proof. rewrite append_assoc. reflexivity. Qed.

Lemma has_suffix_append (body suffix : string) : has_suffix suffix (body ++ suffix) = true.
Proof.
  induction body as [|c body IH]; simpl.
  - destruct suffix; simpl; rewrite ?Ascii.eqb_refl, ?String.eqb_refl; reflexivity.
  - rewrite IH. apply orb_true_r.
Qed.

Lemma has_fraction_append (body : string) (c : ascii) (rest : string) :
  Re.is_digit c = true -> has_fraction (body ++ String "." (String c rest)) = true.
Proof.
  intros Hc. induction body as [|b body IH].
  - simpl. now rewrite Hc.
  - cbn [append has_fraction]. rewrite IH. apply orb_true_r.
Qed.

Lemma work_datetime_shape (w : work_item) (t : datetime) :
  work_datetime w = inr t ->
  has_suffix "-0600" (started w) = true /\ has_fraction (started w) = true.
Proof.
  intros H. unfold work_datetime in H.
  apply (StrptimeFacts.strptime_inv _ _ _ _ StrptimeFacts.pattern_worklog) in H.
  destruct H as (found & H & _). apply StrptimeFacts.worklog_parts in H.
  destruct H as (p & -> & Hp & _). split.
  - change "-0600" with ("" ++ "-0600") at 2.
    rewrite StrptimeFacts.stamp_append. apply has_suffix_append.
  - destruct Hp as (_ & _ & _ & _ & _ & _ & _ & Hlen & Hdig).
    unfold Formats.stamp. destruct (Formats.pf p) as [|c rest]; [simpl in Hlen; lia|].
    destruct Hdig as [Hc _].
    cbn [append]. do 5 rewrite append_cons_assoc. apply has_fraction_append, Hc.
Qed.

Lemma steps_member_error a w ws :
  In w ws -> (forall d, exists e, step a w d = inl e) ->
  forall d, exists e, steps a ws d = inl e.
Proof.
  intros Hin Hw. induction ws as [|w' ws IH]; [destruct Hin|]. intros d. simpl.
  destruct (step a w' d) as [e|d'] eqn:Hs; [eauto|].
  destruct Hin as [-> | Hin].
  - destruct (Hw d) as [e He]. congruence.
  - apply IH, Hin.
Qed.

(** C10: a work item whose start does not end with [-0600], or has no
    point followed by a digit, raises [ValueError] whatever the window and
    the state, before any line is printed or any hours are credited; a run
    that visits such a work item ends with a traceback and status 1, and
    prints no report. *)
Theorem worklog_timestamp_required
        (argparse : list string -> M namespace) (prog : string) (args : list string)
        (jira_issues : list issue) (t0 : list event) (a : arguments) (w : work_item) :
  parse_args argparse prog args = (t0, inr a) ->
  In w (all_items jira_issues) ->
  has_suffix "-0600" (started w) = false \/ has_fraction (started w) = false ->
  (forall header detail a' st, log_work header detail a' w st = raise ValueError)
  /\ exists e tl,
       run argparse prog args jira_issues
       = ((t0 ++ JiraConnect :: JiraSearchIssues :: tl ++ [Stderr (Traceback e)])%list, 1)
       /\ Forall work_event tl.
Proof.
  intros Hp Hin Hbad.
  assert (Hw : work_datetime w = inl ValueError).
  { destruct (work_datetime w) as [e|t] eqn:E.
    - apply strptime_error in E. now subst.
    - apply work_datetime_shape in E. destruct E, Hbad; congruence. }
  split.
  - intros header detail a' st. apply log_work_unparsed, Hw.
  - destruct (steps_member_error a w _ Hin) with (d := developer_hours_init) as [e He].
    + intros d. exists ValueError. unfold step. now rewrite Hw.
    + destruct (run_failure _ _ _ _ _ _ _ Hp He) as (tl & Hr & Htl). eauto.
Qed.

Lemma worklog_timestamp_required_witness :
  (forall header detail a' st,
      log_work header detail a'
        {| author_displayName := "Greg Thain";
           started := "2023-01-15T10:00:00.000-0500";
           timeSpentSeconds := 3600 |} st = raise ValueError)
  /\ exists e tl,
       run argparse_simple "hours" january_args
           [one_issue [worked "Greg Thain" 3600;
                       {| author_displayName := "Greg Thain";
                          started := "2023-01-15T10:00:00.000-0500";
                          timeSpentSeconds := 3600 |}]]
       = (([] ++ JiraConnect :: JiraSearchIssues :: tl ++ [Stderr (Traceback e)])%list, 1)
       /\ Forall work_event tl.
Proof.
  apply (worklog_timestamp_required argparse_simple "hours" january_args _ [] (january false)).
  - vm_compute. reflexivity.
  - simpl. right. left. reflexivity.
  - left. vm_compute. reflexivity.
Defined.

(** ** The order of the work items *)

Lemma map_untouched (f : string * num -> string * num) (name : string) (d : dict) :
  (forall kv, fst kv <> name -> f kv = kv) -> ~ In name (map fst d) -> map f d = d.
Proof.
  intros Hf. induction d as [|kv d IH]; simpl; intros Hn; [reflexivity|].
  rewrite Hf, IH; auto.
Qed.

Lemma credit_map (d : dict) (w : work_item) :
  NoDup (map fst d) -> known d w ->
  credit d w
  = map (fun kv => if String.eqb (fst kv) (author_displayName w)
                   then (fst kv, add (snd kv) (hours_spent w)) else kv) d.
Proof.
  unfold credit, value, known. generalize (author_displayName w) (hours_spent w).
  intros name h Hnd [v Hv]. rewrite Hv.
  induction d as [|[k v0] d IH]; simpl in *; [discriminate|].
  inversion Hnd as [|? ? Hk Hd]; subst.
  destruct (String.eqb k name) eqn:E.
  - apply String.eqb_eq in E. subst k. injection Hv as ->. f_equal.
    symmetry. apply (map_untouched _ name); [|exact Hk].
    intros kv Hkv. apply String.eqb_neq in Hkv. now rewrite Hkv.
  - f_equal. apply IH; assumption.
Qed.

Lemma tally_per_author (ws : list work_item) : forall d,
  NoDup (map fst d) -> (forall w, In w ws -> known d w) ->
  fold_left credit ws d
  = map (fun kv => (fst kv, author_total (fst kv) ws (snd kv))) d.
Proof.
  induction ws as [|w ws IH]; intros d Hnd Hk.
  - simpl. unfold author_total. simpl. rewrite <- (map_id d) at 1.
    apply map_ext. intros [k v]. reflexivity.
  - assert (Hw : known d w) by (apply Hk; now left).
    simpl fold_left. rewrite IH.
    + rewrite (credit_map d w Hnd Hw), map_map. apply map_ext. intros [k v].
      unfold author_total, by_author. simpl.
      rewrite (String.eqb_sym (author_displayName w) k).
      destruct (String.eqb k (author_displayName w)); reflexivity.
    + now rewrite keys_credit.
    + intros w' Hw'. apply known_credit; [exact Hw | apply Hk; now right].
Qed.

(** C8, as the code has it: for well-formed work items of known authors,
    the hours after a work log depend only on the counted work items of
    each author in their order; two orders of the work log that agree
    author by author give the same hours. *)
Theorem totals_depend_on_order_per_author
        (key : string) (header : line) (detail : string -> num -> list Z -> line)
        (a : arguments) (ws1 ws2 : list work_item) (d : dict) :
  NoDup (map fst d) -> clean a d ws1 -> clean a d ws2 ->
  (forall name, by_author name (filter (counted a) ws1)
                = by_author name (filter (counted a) ws2)) ->
  snd (log_worklog key header detail a ws1 d)
  = snd (log_worklog key header detail a ws2 d).
Proof.
  intros Hnd H1 H2 Hsame.
  rewrite !log_worklog_steps, (steps_clean _ _ _ H1), (steps_clean _ _ _ H2).
  f_equal. unfold tally. rewrite !tally_per_author; auto.
  - apply map_ext. intros [k v]. unfold author_total. simpl. now rewrite Hsame.
  - intros w Hw. apply filter_In in Hw. destruct Hw as [Hw Hc]. now apply H2.
  - intros w Hw. apply filter_In in Hw. destruct Hw as [Hw Hc]. now apply H1.
Qed.

Lemma totals_depend_on_order_per_author_witness :
  snd (log_worklog "HTCONDOR-1" (IssueHeader "HTCONDOR-1" "An improvement") IssueWorklog
         (january false)
         [worked "Greg Thain" 360; worked "Jaime Frey" 720; worked "Greg Thain" 1080]
         developer_hours_init)
  = snd (log_worklog "HTCONDOR-1" (IssueHeader "HTCONDOR-1" "An improvement") IssueWorklog
           (january false)
           [worked "Jaime Frey" 720; worked "Greg Thain" 360; worked "Greg Thain" 1080]
           developer_hours_init).
Proof.
  apply (totals_depend_on_order_per_author "HTCONDOR-1" _ _ (january false)
           [worked "Greg Thain" 360; worked "Jaime Frey" 720; worked "Greg Thain" 1080]
           [worked "Jaime Frey" 720; worked "Greg Thain" 360; worked "Greg Thain" 1080]
           developer_hours_init).
  - repeat constructor; simpl; intuition discriminate.
  - apply clean_b_sound. vm_compute. reflexivity.
  - apply clean_b_sound. vm_compute. reflexivity.
  - intros name.
    replace (filter (counted (january false))
               [worked "Greg Thain" 360; worked "Jaime Frey" 720; worked "Greg Thain" 1080])
      with [worked "Greg Thain" 360; worked "Jaime Frey" 720; worked "Greg Thain" 1080]
      by (vm_compute; reflexivity).
    replace (filter (counted (january false))
               [worked "Jaime Frey" 720; worked "Greg Thain" 360; worked "Greg Thain" 1080])
      with [worked "Jaime Frey" 720; worked "Greg Thain" 360; worked "Greg Thain" 1080]
      by (vm_compute; reflexivity).
    unfold by_author, worked. cbn [filter author_displayName].
    destruct (String.eqb_spec "Greg Thain" name) as [<-|_]; [reflexivity|].
    destruct (String.eqb "Jaime Frey" name); reflexivity.
Defined.

(** C8 as stated fails: three counted work items of one known author, of
    360, 720 and 1080 seconds, leave 0.6000000000000001 hours in one order
    and 0.6 hours in the reverse order. *)
Lemma totals_change_with_order :
  let ws1 := [worked "Greg Thain" 360; worked "Greg Thain" 720; worked "Greg Thain" 1080] in
  let ws2 := [worked "Greg Thain" 1080; worked "Greg Thain" 720; worked "Greg Thain" 360] in
  let run1 := log_worklog "HTCONDOR-1" (IssueHeader "HTCONDOR-1" "An improvement")
                          IssueWorklog (january false) ws1 developer_hours_init in
  let run2 := log_worklog "HTCONDOR-1" (IssueHeader "HTCONDOR-1" "An improvement")
                          IssueWorklog (january false) ws2 developer_hours_init in
  Permutation ws1 ws2
  /\ clean (january false) developer_hours_init ws1
  /\ forallb (counted (january false)) ws1 = true
  /\ float_of_entry (snd run1) "Greg Thain" = Prim2SF 0.6000000000000001
  /\ float_of_entry (snd run2) "Greg Thain" = Prim2SF 0.6
  /\ snd run1 <> snd run2.
Proof.
  cbv zeta. split; [|split; [|split; [|split; [|split]]]].
  - apply Permutation_rev.
  - apply clean_b_sound. vm_compute. reflexivity.
  - vm_compute. reflexivity.
  - vm_compute. reflexivity.
  - vm_compute. reflexivity.
  - intros H. apply (f_equal (fun r => float_of_entry r "Greg Thain")) in H.
    vm_compute in H. discriminate.
Qed.

(** ** The grand total *)




(** ** The percentage *)

Lemma round_half_even_nearest (n d : Z) :
  0 <= n -> 0 < d ->
  2 * Z.abs (round_half_even n d * d - n) <= d
  /\ (2 * Z.abs (round_half_even n d * d - n) = d -> Z.even (round_half_even n d) = true).
Proof.
  intros Hn Hd. unfold round_half_even.
  pose proof (Z.div_mod n d ltac:(lia)) as E.
  pose proof (Z.mod_pos_bound n d Hd) as B.
  set (q := n / d) in *. set (r := n mod d) in *.
  destruct (Z.compare_spec (2 * r) d) as [C|C|C].
  - destruct (Z.even q) eqn:Eq.
    + split; [nia | auto].
    + split; [nia|]. intros _. rewrite Z.add_1_r, Z.even_succ, <- Z.negb_even, Eq. reflexivity.
  - split; nia.
  - split; nia.
Qed.

Lemma float_round_nearest (x : float) (k : Z) : float_round x = inr k -> nearest_even x k.
Proof.
  unfold float_round, nearest_even.
  destruct (Prim2SF x) as [s| s | |s m e]; try discriminate.
  - intros H. symmetry. congruence.
  - destruct e as [|p|p]; intros H.
    + assert (E : k = if s then - (Z.pos m * 2 ^ 0) else Z.pos m * 2 ^ 0) by congruence.
      rewrite E. destruct s; [change (Z.neg m) with (- Z.pos m); ring | reflexivity].
    + assert (E : k = if s then - (Z.pos m * 2 ^ Z.pos p) else Z.pos m * 2 ^ Z.pos p)
        by congruence.
      rewrite E. destruct s; [change (Z.neg m) with (- Z.pos m); ring | reflexivity].
    + assert (E : k = if s then - round_half_even (Z.pos m) (2 ^ Z.pos p)
                      else round_half_even (Z.pos m) (2 ^ Z.pos p)) by congruence.
      rewrite E. clear H E k.
      assert (Hp : 0 < 2 ^ Z.pos p) by (apply Z.pow_pos_nonneg; lia).
      destruct (round_half_even_nearest (Z.pos m) (2 ^ Z.pos p) ltac:(lia) Hp) as [H1 H2].
      set (k := round_half_even (Z.pos m) (2 ^ Z.pos p)) in *.
      destruct s.
      * replace (- k * 2 ^ Z.pos p - Z.neg m) with (- (k * 2 ^ Z.pos p - Z.pos m))
          by (change (Z.neg m) with (- Z.pos m); ring).
        rewrite Z.abs_opp, Z.even_opp. auto.
      * auto.
Qed.

(** C3, as the code has it: for a dict that is not empty the percentage
    is [round] of the [float] quotient of the grand total times 100 by 40
    times the number of developers, and [round] gives the nearest integer,
    a half going to the even neighbour; it is the last line of the
    report. *)
Theorem percent_rounds_half_to_even (a : arguments) (d : dict) :
  d <> [] ->
  exists q,
    truediv (mul (grand_total d) (PyInt 100)) (PyInt (Z.of_nat (List.length d) * 40))
    = inr (PyFloat q)
    /\ forall k, float_round q = inr k ->
         nearest_even q k
         /\ exists lines, fst (report a d) = (lines ++ [Stdout (PercentEffort k)])%list.
Proof.
  intros Hd.
  assert (Hz : is_zero (PyInt (Z.of_nat (List.length d) * 40)) = false).
  { destruct d; [congruence|]. simpl List.length. apply Z.eqb_neq. lia. }
  unfold truediv. rewrite Hz. eexists. split; [reflexivity|].
  intros k Hk. split; [apply float_round_nearest, Hk|].
  rewrite report_closed. unfold report_events, percent_effort, total_developer_hours, truediv.
  rewrite Hz. simpl PyNum.round. rewrite Hk. simpl fst.
  eexists (_ :: _ ++ [_; _])%list. simpl. rewrite <- app_assoc. reflexivity.
Qed.

Lemma percent_rounds_half_to_even_witness :
  exists q,
    truediv (mul (grand_total (tally (january false) [worked "Greg Thain" 32400]
                                     developer_hours_init))
                 (PyInt 100))
            (PyInt (Z.of_nat (List.length (tally (january false) [worked "Greg Thain" 32400]
                                                 developer_hours_init)) * 40))
    = inr (PyFloat q)
    /\ forall k, float_round q = inr k ->
         nearest_even q k
         /\ exists lines,
              fst (report (january false)
                          (tally (january false) [worked "Greg Thain" 32400]
                                 developer_hours_init))
              = (lines ++ [Stdout (PercentEffort k)])%list.
Proof.
  apply (percent_rounds_half_to_even (january false)
           (tally (january false) [worked "Greg Thain" 32400] developer_hours_init)).
  vm_compute. discriminate.
Defined.

(** C3 as stated fails: with one work item of nine hours the grand total
    is 9.0, the quotient 9.0 * 100 / 360 is 2.5, rounding to the nearest
    integer with halves up gives 3, and the report prints 2. *)
Lemma percent_is_not_standard_rounding :
  run argparse_simple "hours" january_args [one_issue [worked "Greg Thain" 32400]]
  = ([JiraConnect; JiraSearchIssues; JiraWorklogs "HTCONDOR-1";
      Stdout (Between [2023; 1; 1] [2023; 1; 31]);
      Stdout (DeveloperLogged "Mark Coatsworth" (PyInt 0));
      Stdout (DeveloperLogged "Jaime Frey" (PyInt 0));
      Stdout (DeveloperLogged "John (TJ) Knoeller" (PyInt 0));
      Stdout (DeveloperLogged "Todd L Miller" (PyInt 0));
      Stdout (DeveloperLogged "Zach Miller" (PyInt 0));
      Stdout (DeveloperLogged "Jason Patton" (PyInt 0));
      Stdout (DeveloperLogged "Todd Tannenbaum" (PyInt 0));
      Stdout (DeveloperLogged "Greg Thain" (PyFloat 9));
      Stdout (DeveloperLogged "Tim Theisen" (PyInt 0));
      Stdout (TotalHoursLogged (PyFloat 9));
      Stdout (TotalDeveloperHours 360);
      Stdout (PercentEffort 2)], 0)
  /\ truediv (mul (PyFloat 9) (PyInt 100)) (PyInt (9 * 40)) = inr (PyFloat 2.5)
  /\ standard_round 2.5 = Some 3
  /\ percent_effort (PyFloat 9) developer_hours_init = inr 2.
Proof.
  repeat split; vm_compute; reflexivity.
Qed.

(** ** The window of two valid dates *)

Module DateFacts.
Import Re ReSpec ReFacts Strptime Formats StrptimeFacts.

Lemma matches_cls (p : cls) (ch : ascii) (c : captures) :
  mem p ch = true -> matches (Cls p) (String ch "") c c.
Proof. intros H. simpl. eauto. Qed.

Lemma matches_cls_cat (p : cls) (r : regex) (ch : ascii) (m : string) (c c' : captures) :
  mem p ch = true -> matches r m c c' -> matches (Cat (Cls p) r) (String ch m) c c'.
Proof.
  intros H Hr. exists (String ch ""), m, c. split; [reflexivity|].
  split; [apply matches_cls, H | exact Hr].
Qed.

Lemma matches_grp (n : ascii) (r : regex) (m : string) (c : captures) :
  matches r m c c -> matches (Grp n r) m c ((n, m) :: c).
Proof. intros H. exists c. auto. Qed.

Lemma digit_code (ch : ascii) : is_digit ch = true -> (48 <= code ch <= 57)%N.
Proof. unfold is_digit. intros H. codes. Qed.

Lemma char_of_code (ch a : ascii) : code ch = code a -> ch = a.
Proof. apply code_inj. Qed.

Lemma matches_year (y1 y2 y3 y4 : ascii) (c : captures) :
  is_digit y1 = true -> is_digit y2 = true -> is_digit y3 = true -> is_digit y4 = true ->
  matches re_Y (String y1 (String y2 (String y3 (String y4 "")))) c
          (("Y"%char, String y1 (String y2 (String y3 (String y4 "")))) :: c).
Proof.
  intros H1 H2 H3 H4. apply matches_grp.
  repeat (apply matches_cls_cat; [assumption|]). apply matches_cls. assumption.
Qed.

Lemma int_two (a b : ascii) :
  int (String a (String b "")) = 10 * digit_value a + digit_value b.
Proof. unfold int. simpl. lia. Qed.

Lemma range_code (a b ch : ascii) :
  (code a <= code ch <= code b)%N -> mem (Range a b) ch = true.
Proof. simpl. unfold range. intros H. codes. Qed.

Lemma matches_month (m1 m2 : ascii) (c : captures) :
  is_digit m1 = true -> is_digit m2 = true ->
  1 <= int (String m1 (String m2 "")) <= 12 ->
  matches re_m (String m1 (String m2 "")) c (("m"%char, String m1 (String m2 "")) :: c).
Proof.
  intros H1 H2. rewrite int_two. unfold digit_value. intros H.
  apply digit_code in H1, H2. apply matches_grp.
  assert (E : (code m1 = 48 /\ 49 <= code m2 <= 57)%N
              \/ (code m1 = 49 /\ 48 <= code m2 <= 50)%N) by lia.
  clear H H1 H2. destruct E as [[E B]|[E B]].
  - right. left. apply (char_of_code m1 "0") in E. subst m1.
    apply matches_cls_cat; [reflexivity|]. apply matches_cls, range_code, B.
  - left. apply (char_of_code m1 "1") in E. subst m1.
    apply matches_cls_cat; [reflexivity|]. apply matches_cls, range_code, B.
Qed.

Lemma matches_day (d1 d2 : ascii) (c : captures) :
  is_digit d1 = true -> is_digit d2 = true ->
  1 <= int (String d1 (String d2 "")) <= 31 ->
  matches re_d (String d1 (String d2 "")) c (("d"%char, String d1 (String d2 "")) :: c).
Proof.
  intros H1 H2. rewrite int_two. unfold digit_value. intros H.
  pose proof H2 as D2. apply digit_code in H1, H2. apply matches_grp.
  assert (E : (code d1 = 48 /\ 49 <= code d2 <= 57)%N
              \/ (49 <= code d1 <= 50)%N
              \/ (code d1 = 51 /\ 48 <= code d2 <= 49)%N) by lia.
  clear H H1 H2. destruct E as [[E B]|[B|[E B]]].
  - right. right. left. apply (char_of_code d1 "0") in E. subst d1.
    apply matches_cls_cat; [reflexivity|]. apply matches_cls, range_code, B.
  - right. left. apply matches_cls_cat; [|apply matches_cls; exact D2].
    apply range_code, B.
  - left. apply (char_of_code d1 "3") in E. subst d1.
    apply matches_cls_cat; [reflexivity|]. apply matches_cls, range_code, B.
Qed.

Lemma days_in_month_le (y m : Z) : DateTime.days_in_month y m <= 31.
Proof.
  unfold DateTime.days_in_month.
  destruct m as [|[[[[]|[]|]|[[]|[]|]|]|[[[]|[]|]|[[]|[]|]|]|]|]; try lia;
    destruct (DateTime.is_leap y); lia.
Qed.

(** A valid date followed by a time of the script converts to that date
    at that time. *)
Lemma strptime_date (s time : string) (y m d h mi sec : Z) :
  date_of_string s = Some (y, m, d) -> DateTime.check_date y m d = true ->
  (forall c, run (Cat (Plus Space)
                  (Cat re_H (Cat (chr ":") (Cat re_M (Cat (chr ":") (Cat re_S Eps))))))
                 time c
             = Some (("S"%char, substring 7 2 time) :: ("M"%char, substring 4 2 time)
                       :: ("H"%char, substring 1 2 time) :: c, "")) ->
  int (substring 1 2 time) = h -> int (substring 4 2 time) = mi ->
  int (substring 7 2 time) = sec ->
  DateTime.check_time h mi sec 0 = true ->
  strptime (s ++ time) "%Y-%m-%d %H:%M:%S" = inr (DateTime.mk y m d h mi sec 0).
Proof.
  intros Hs Hd Ht Hh Hmi Hsec Hc.
  destruct s as [|y1 [|y2 [|y3 [|y4 [|h1 [|m1 [|m2 [|h2 [|d1 [|d2 [|? ?]]]]]]]]]]];
    try discriminate.
  unfold date_of_string in Hs.
  destruct (forallb is_digit [y1; y2; y3; y4; m1; m2; d1; d2] && exact "-" h1
            && exact "-" h2) eqn:E; [|discriminate].
  injection Hs as Hy Hm Hdd.
  apply andb_true_iff in E. destruct E as [E E2].
  apply andb_true_iff in E. destruct E as [E E1].
  simpl in E. repeat (apply andb_true_iff in E; destruct E as [? E]).
  apply N.eqb_eq, char_of_code in E1, E2. subst h1 h2.
  unfold DateTime.check_date in Hd.
  repeat (apply andb_true_iff in Hd; destruct Hd as [Hd ?]).
  pose proof (days_in_month_le y m).
  rewrite (strptime_run _ _ _ pattern_argument).
  unfold argument_regex, date_time.
  change (String y1 (String y2 (String y3 (String y4 (String "-" (String m1 (String m2
           (String "-" (String d1 (String d2 ""))))))))) ++ time)
    with (String y1 (String y2 (String y3 (String y4 "")))
          ++ String "-" (String m1 (String m2 "")
          ++ String "-" (String d1 (String d2 "") ++ time))).
  erewrite run_date;
    [ | apply matches_year; assumption
      | apply matches_month; [assumption | assumption | lia]
      | apply matches_day; [assumption | assumption | lia]
      | reflexivity | reflexivity
      | apply head_spaces
      | apply Ht ].
  unfold datetime_of, field, fraction. simpl group. cbv iota.
  rewrite Hy, Hm, Hdd, Hh, Hmi, Hsec. unfold DateTime.make.
  unfold DateTime.check_date.
  repeat match goal with H : (_ <=? _) = true |- _ => rewrite H; clear H end.
  rewrite Hc. reflexivity.
Qed.

Lemma shape_of_date (s : string) (y m d : Z) :
  date_of_string s = Some (y, m, d) -> match_date_shape (Some s) = ret true.
Proof.
  intros Hs.
  destruct s as [|y1 [|y2 [|y3 [|y4 [|h1 [|m1 [|m2 [|h2 [|d1 [|d2 [|? ?]]]]]]]]]]];
    try discriminate.
  unfold date_of_string in Hs.
  destruct (forallb is_digit [y1; y2; y3; y4; m1; m2; d1; d2] && exact "-" h1
            && exact "-" h2) eqn:E; [|discriminate].
  apply andb_true_iff in E. destruct E as [E E2].
  apply andb_true_iff in E. destruct E as [E E1].
  simpl in E. repeat (apply andb_true_iff in E; destruct E as [? E]).
  unfold match_date_shape, re_match, date_shape. simpl.
  repeat match goal with H : is_digit _ = true |- _ => rewrite H; clear H end.
  rewrite E1, E2. reflexivity.
Qed.

End DateFacts.

(** C6: when both date arguments have the shape [YYYY-MM-DD] and are dates
    of the calendar, [parse_args] returns the window that starts on the
    start date at 00:00:01 and ends on the end date at 23:59:59, both
    naive, and prints nothing of its own. *)
Theorem window_of_valid_dates
        (argparse : list string -> M namespace) (prog : string) (args : list string)
        (t0 : list event) (ns : namespace) (s e : string) (ys ms ds ye me de : Z) :
  Z.of_nat (List.length (prog :: args)) = 5 \/ Z.of_nat (List.length (prog :: args)) = 6 ->
  argparse args = (t0, inr ns) ->
  startdate ns = Some s -> enddate ns = Some e ->
  date_of_string s = Some (ys, ms, ds) -> check_date ys ms ds = true ->
  date_of_string e = Some (ye, me, de) -> check_date ye me de = true ->
  parse_args argparse prog args
  = (t0, inr {| start_datetime := DateTime.mk ys ms ds 0 0 1 0;
                end_datetime := DateTime.mk ye me de 23 59 59 0;
                arg_detailed := detailed ns |}).
Proof.
  intros Hargc Hap Hs He Hds Hcs Hde Hce. unfold parse_args.
  replace ((Z.of_nat (List.length (prog :: args)) =? 5)
           || (Z.of_nat (List.length (prog :: args)) =? 6)) with true
    by (symmetry; apply orb_true_iff; rewrite !Z.eqb_eq; exact Hargc).
  cbv beta iota delta [negb]. rewrite Hap.
  erewrite bind_value by reflexivity. rewrite Hs, He.
  rewrite (DateFacts.shape_of_date s _ _ _ Hds), bind_ret. cbv beta iota delta [negb].
  rewrite bind_ret.
  rewrite (DateFacts.shape_of_date e _ _ _ Hde), bind_ret. cbv beta iota delta [negb].
  rewrite bind_ret. unfold text.
  rewrite (DateFacts.strptime_date s " 00:00:01" ys ms ds 0 0 1 Hds Hcs)
    by (intros; reflexivity).
  rewrite bind_ret.
  rewrite (DateFacts.strptime_date e " 23:59:59" ye me de 23 59 59 Hde Hce)
    by (intros; reflexivity).
  rewrite bind_ret. simpl. rewrite app_nil_r. reflexivity.
Qed.

Lemma window_of_valid_dates_witness :
  parse_args argparse_simple "hours" ["-startdate"; "2024-02-29"; "-enddate"; "2024-03-31"]
  = ([], inr {| start_datetime := DateTime.mk 2024 2 29 0 0 1 0;
                end_datetime := DateTime.mk 2024 3 31 23 59 59 0;
                arg_detailed := false |}).
Proof.
  apply (window_of_valid_dates argparse_simple "hours"
           ["-startdate"; "2024-02-29"; "-enddate"; "2024-03-31"] []
           {| startdate := Some "2024-02-29"; enddate := Some "2024-03-31"; detailed := false |}
           "2024-02-29" "2024-03-31" 2024 2 29 2024 3 31).
  - left. reflexivity.
  - reflexivity.
  - reflexivity.
  - reflexivity.
  - reflexivity.
  - reflexivity.
  - reflexivity.
  - reflexivity.
Defined.

(** ** The shape of the date arguments *)

(** C5, where the code departs from it: the pattern of the shape is
    matched at the start of the argument only.  An argument made of a
    valid date and a space does not have the shape [YYYY-MM-DD], yet the
    run accepts it and reports on the window of that date; an argument
    made of a valid date and a letter is refused as an invalid date, not
    as a wrong format. *)
Theorem date_shape_is_not_anchored :
  date_of_string "2023-01-01 " = None
  /\ parse_args argparse_simple "hours" ["-startdate"; "2023-01-01 "; "-enddate"; "2023-01-31"]
     = ([], inr (january false))
  /\ snd (run argparse_simple "hours"
              ["-startdate"; "2023-01-01 "; "-enddate"; "2023-01-31"] []) = 0
  /\ date_of_string "2023-01-01x" = None
  /\ run argparse_simple "hours" ["-startdate"; "2023-01-01x"; "-enddate"; "2023-01-31"] []
     = ([Stdout (ErrorStartDate "2023-01-01x")], 255).
Proof. repeat split; vm_compute; reflexivity. Qed.


(** * Further properties of the code *)

(** ** [parse_args]: the tests of the arguments *)

Lemma match_date_shape_prefix (s : string) :
  match_date_shape (Some s) = ret (starts_with_date s).
Proof.
  unfold match_date_shape, Re.re_match, date_shape. f_equal. f_equal.
  destruct s as [|y1 [|y2 [|y3 [|y4 [|h1 [|m1 [|m2 [|h2 [|d1 [|d2 rest]]]]]]]]]];
    simpl;
    repeat match goal with
           | |- context [Re.is_digit ?c] => destruct (Re.is_digit c); simpl
           | |- context [Re.exact ?a ?c] => destruct (Re.exact a c); simpl
           end;
    reflexivity.
Qed.

Lemma parse_args_shapes
      (argparse : list string -> M namespace) (prog : string) (args : list string)
      (t0 : list event) (ns : namespace) (s e : string) :
  Z.of_nat (List.length (prog :: args)) = 5 \/ Z.of_nat (List.length (prog :: args)) = 6 ->
  argparse args = (t0, inr ns) -> startdate ns = Some s -> enddate ns = Some e ->
  parse_args argparse prog args
  = bind (t0, inr tt) (fun _ =>
      if negb (starts_with_date s) then print ErrorStartFormat ;;; sys_exit (-1)
      else if negb (starts_with_date e) then print ErrorEndFormat ;;; sys_exit (-1)
      else
        start <- match strptime (s ++ " 00:00:01") "%Y-%m-%d %H:%M:%S" with
                 | inr t => ret t
                 | inl _ => print (ErrorStartDate s) ;;; sys_exit (-1)
                 end ;;
        end_ <- match strptime (e ++ " 23:59:59") "%Y-%m-%d %H:%M:%S" with
                | inr t => ret t
                | inl _ => print (ErrorEndDate e) ;;; sys_exit (-1)
                end ;;
        ret {| start_datetime := start; end_datetime := end_;
               arg_detailed := detailed ns |}).
Proof.
  intros Hargc Hap Hs He. unfold parse_args.
  replace ((Z.of_nat (List.length (prog :: args)) =? 5)
           || (Z.of_nat (List.length (prog :: args)) =? 6)) with true
    by (symmetry; apply orb_true_iff; rewrite !Z.eqb_eq; exact Hargc).
  cbv beta iota delta [negb]. rewrite Hap.
  erewrite bind_value by reflexivity. erewrite (bind_value (t0, inr tt)) by reflexivity.
  rewrite Hs, He, !match_date_shape_prefix, bind_ret. unfold text.
  destruct (starts_with_date s); cbv beta iota delta [negb]; [|reflexivity].
  rewrite !bind_ret.
  destruct (starts_with_date e); cbv beta iota delta [negb]; [|reflexivity].
  rewrite !bind_ret. reflexivity.
Qed.

Lemma run_exit (argparse : list string -> M namespace) (prog : string) (args : list string)
      (jira_issues : list issue) (t : list event) (code : Z) :
  parse_args argparse prog args = (t, inl (SystemExit code)) ->
  run argparse prog args jira_issues = (t, code mod 256).
Proof. intros H. unfold run, main, main_parse_args. rewrite H. reflexivity. Qed.

(** X1: the format of both date arguments is tested before either is
    converted, and at the start of the argument only.  An argument whose
    first ten characters do not have the shape is reported on standard
    output, the start date first, and the run exits with status 255 without
    calling Jira; a wrong end date is reported as a format error even when
    the start date is not a date of the calendar. *)
Theorem wrong_format_is_reported_first
        (argparse : list string -> M namespace) (prog : string) (args : list string)
        (jira_issues : list issue) (t0 : list event) (ns : namespace) (s e : string) :
  Z.of_nat (List.length (prog :: args)) = 5 \/ Z.of_nat (List.length (prog :: args)) = 6 ->
  argparse args = (t0, inr ns) -> startdate ns = Some s -> enddate ns = Some e ->
  (starts_with_date s = false ->
   run argparse prog args jira_issues = ((t0 ++ [Stdout ErrorStartFormat])%list, 255))
  /\ (starts_with_date s = true -> starts_with_date e = false ->
      run argparse prog args jira_issues = ((t0 ++ [Stdout ErrorEndFormat])%list, 255)).
Proof.
  intros Hargc Hap Hs He. split.
  - intros H1. apply (run_exit _ _ _ _ _ (-1)).
    rewrite (parse_args_shapes _ _ _ _ _ _ _ Hargc Hap Hs He), H1. reflexivity.
  - intros H1 H2. apply (run_exit _ _ _ _ _ (-1)).
    rewrite (parse_args_shapes _ _ _ _ _ _ _ Hargc Hap Hs He), H1, H2. reflexivity.
Qed.

Lemma wrong_format_is_reported_first_witness :
  run argparse_simple "hours" ["-startdate"; "2023-13-45"; "-enddate"; "2023/01/31"]
      [one_issue [worked "Greg Thain" 3600]]
  = (([] ++ [Stdout ErrorEndFormat])%list, 255).
Proof.
  apply (proj2 (wrong_format_is_reported_first argparse_simple "hours"
           ["-startdate"; "2023-13-45"; "-enddate"; "2023/01/31"]
           [one_issue [worked "Greg Thain" 3600]] []
           {| startdate := Some "2023-13-45"; enddate := Some "2023/01/31";
              detailed := false |}
           "2023-13-45" "2023/01/31"
           (or_introl eq_refl) eq_refl eq_refl eq_refl)).
  - reflexivity.
  - reflexivity.
Defined.

(** ** [main]: when [parse_args] raises *)

(** X2: when a date option is not given, so that its value is [None], the
    test of its format raises [TypeError]; [main] reports it on standard
    error, goes on without [args], and the run ends with
    [UnboundLocalError] and status 1; Jira is not called. *)
Theorem missing_option_ends_in_unbound_args
        (argparse : list string -> M namespace) (prog : string) (args : list string)
        (jira_issues : list issue) (t0 : list event) (ns : namespace) :
  Z.of_nat (List.length (prog :: args)) = 5 \/ Z.of_nat (List.length (prog :: args)) = 6 ->
  argparse args = (t0, inr ns) ->
  startdate ns = None
  \/ (exists s, startdate ns = Some s /\ starts_with_date s = true /\ enddate ns = None) ->
  run argparse prog args jira_issues
  = ((t0 ++ [Stderr (FailedToParse TypeError); Stderr (Traceback UnboundLocalError)])%list, 1).
Proof.
  intros Hargc Hap H.
  assert (Hp : parse_args argparse prog args = (t0, inl TypeError)).
  { unfold parse_args.
    replace ((Z.of_nat (List.length (prog :: args)) =? 5)
             || (Z.of_nat (List.length (prog :: args)) =? 6)) with true
      by (symmetry; apply orb_true_iff; rewrite !Z.eqb_eq; exact Hargc).
    cbv beta iota delta [negb]. rewrite Hap. erewrite bind_value by reflexivity.
    destruct H as [H | (s & Hs & Hshape & He)].
    - rewrite H. simpl. now rewrite app_nil_r.
    - rewrite Hs, He, match_date_shape_prefix, Hshape, bind_ret.
      cbv beta iota delta [negb]. rewrite bind_ret. simpl. now rewrite app_nil_r. }
  unfold run, main, main_parse_args. rewrite Hp. simpl.
  rewrite <- app_assoc. reflexivity.
Qed.

Lemma missing_option_ends_in_unbound_args_witness :
  run argparse_simple "hours" ["-enddate"; "2023-01-01"; "-enddate"; "2023-01-31"]
      [one_issue [worked "Greg Thain" 3600]]
  = (([] ++ [Stderr (FailedToParse TypeError); Stderr (Traceback UnboundLocalError)])%list, 1).
Proof.
  apply (missing_option_ends_in_unbound_args argparse_simple "hours"
           ["-enddate"; "2023-01-01"; "-enddate"; "2023-01-31"] _ []
           {| startdate := None; enddate := Some "2023-01-31"; detailed := false |}).
  - left. reflexivity.
  - reflexivity.
  - left. reflexivity.
Defined.

(** ** [parse_args]: arguments that are not dates *)

Module ArgumentFacts.
Import Re ReSpec ReFacts Strptime Formats StrptimeFacts.

Lemma year_text m c c' :
  matches re_Y m c c' -> exists a b e f, m = String a (String b (String e (String f ""))).
Proof.
  unfold re_Y, digit. simpl. intros H. split_matches. simpl. eauto.
Qed.

Lemma month_text m c c' :
  matches re_m m c c' ->
  (exists a, m = String a "") \/ (exists a b, m = String a (String b "")).
Proof.
  unfold re_m, chr, rng. simpl. intros H. split_matches; simpl; eauto.
Qed.

Lemma day_text m c c' :
  matches re_d m c c' ->
  (exists a, m = String a "") \/ (exists a b, m = String a (String b "")).
Proof.
  unfold re_d, chr, rng, digit. simpl. intros H. split_matches; simpl; eauto.
Qed.

(** The groups of the date in a match of the format of the arguments
    against a text that starts with a date of ten characters. *)
Lemma argument_groups (y1 y2 y3 y4 m1 m2 d1 d2 : ascii) (rest : string) (found : captures) :
  is_digit m2 = true -> is_digit d2 = true ->
  run argument_regex
      (String y1 (String y2 (String y3 (String y4 (String "-" (String m1 (String m2
        (String "-" (String d1 (String d2 rest))))))))))
      [] = Some (found, "") ->
  field "Y" 1900 found = int (String y1 (String y2 (String y3 (String y4 ""))))
  /\ field "m" 1 found = int (String m1 (String m2 ""))
  /\ field "d" 1 found = int (String d1 (String d2 "")).
Proof.
  intros Dm2 Dd2 H. apply run_sound in H. destruct H as (m & E & H).
  rewrite append_empty_r in E. subst m.
  unfold argument_regex, date_time in H.
  apply matches_cat in H. destruct H as (mY & r1 & cY & E & HY & H).
  pose proof (year_text _ _ _ HY) as (a1 & a2 & a3 & a4 & ->).
  destruct (any_Y _ _ _ HY) as [-> _]. clear HY.
  apply matches_cat in H. destruct H as (s1 & r2 & c1 & -> & K & H).
  apply matches_chr in K. destruct K as (h1 & -> & _ & ->).
  apply matches_cat in H. destruct H as (mm & r3 & cm & -> & Hm & H).
  destruct (any_m _ _ _ Hm) as [-> _].
  apply matches_cat in H. destruct H as (s2 & r4 & c2 & -> & K & H).
  apply matches_chr in K. destruct K as (h2 & -> & L2 & ->).
  apply matches_cat in H. destruct H as (md & r5 & cd & -> & Hd & H).
  destruct (any_d _ _ _ Hd) as [-> _].
  apply matches_cat in H. destruct H as (ws & r6 & cw & -> & Hw & H).
  destruct Hw as [[Hne Hws] ->].
  simpl in E. injection E as E1 E2 E3 E4 _ E. subst a1 a2 a3 a4.
  destruct (month_text _ _ _ Hm) as [(a & ->) | (a & b & ->)]; simpl in E.
  - injection E as Ea Eb _. subst a h2.
    apply (lit_not_digit "-" m2 eq_refl) in L2. congruence.
  - injection E as Ea Eb _ E. subst a b.
    destruct (day_text _ _ _ Hd) as [(a & ->) | (a & b & ->)]; simpl in E.
    + injection E as Ea E. subst a. destruct ws as [|w ws]; [congruence|].
      simpl in E. injection E as Ew _. subst w. destruct Hws as [Hw _].
      apply space_not_digit in Hw. congruence.
    + injection E as Ea Eb _. subst a b.
      clear - H.
      remember (("d"%char, String d1 (String d2 ""))
                :: ("m"%char, String m1 (String m2 ""))
                :: ("Y"%char, String y1 (String y2 (String y3 (String y4 ""))))
                :: @nil (ascii * string)) as base eqn:Eb.
      apply matches_cat in H. destruct H as (mH & q1 & cH & _ & HH & H).
      destruct (any_H _ _ _ HH) as [-> _].
      apply matches_cat in H. destruct H as (q2 & q3 & q4 & _ & K & H).
      apply matches_chr in K. destruct K as (? & _ & _ & ->).
      apply matches_cat in H. destruct H as (mM & q5 & cM & _ & HM & H).
      destruct (any_M _ _ _ HM) as [-> _].
      apply matches_cat in H. destruct H as (q6 & q7 & q8 & _ & K & H).
      apply matches_chr in K. destruct K as (? & _ & _ & ->).
      apply matches_cat in H. destruct H as (mS & q9 & cS & _ & HS & H).
      destruct (any_S _ _ _ HS) as [-> _].
      apply matches_eps in H. destruct H as [_ ->].
      subst base. repeat split; reflexivity.
Qed.

(** A text of the shape of a date that is not a date of the calendar is
    not converted, whatever follows it. *)
Lemma strptime_not_a_date (s time : string) (y m d : Z) :
  date_of_string s = Some (y, m, d) -> DateTime.check_date y m d = false ->
  strptime (s ++ time) "%Y-%m-%d %H:%M:%S" = inl ValueError.
Proof.
  intros Hs Hd.
  destruct (strptime (s ++ time) "%Y-%m-%d %H:%M:%S") as [e|t] eqn:E.
  - apply strptime_error in E. now subst.
  - exfalso. apply (strptime_inv _ _ _ _ pattern_argument) in E.
    destruct E as (found & Hrun & Ht).
    destruct s as [|y1 [|y2 [|y3 [|y4 [|h1 [|m1 [|m2 [|h2 [|d1 [|d2 [|? ?]]]]]]]]]]];
      try discriminate.
    unfold date_of_string in Hs.
    destruct (forallb is_digit [y1; y2; y3; y4; m1; m2; d1; d2] && exact "-" h1
              && exact "-" h2) eqn:B; [|discriminate].
    injection Hs as Hy Hm Hdd.
    apply andb_true_iff in B. destruct B as [B E2].
    apply andb_true_iff in B. destruct B as [B E1].
    simpl in B. repeat (apply andb_true_iff in B; destruct B as [? B]).
    apply N.eqb_eq, code_inj in E1, E2. subst h1 h2.
    cbn [append] in Hrun.
    assert (Dm2 : is_digit m2 = true) by assumption.
    assert (Dd2 : is_digit d2 = true) by assumption.
    destruct (argument_groups y1 y2 y3 y4 m1 m2 d1 d2 time found Dm2 Dd2 Hrun)
      as (FY & Fm & Fd).
    unfold datetime_of in Ht. rewrite FY, Fm, Fd, Hy, Hm, Hdd in Ht.
    unfold DateTime.make in Ht. rewrite Hd in Ht. discriminate.
Qed.

End ArgumentFacts.

(** X3: when both arguments start with the shape of a date, a start
    date of exactly that shape that is not a date of the calendar is
    reported on standard output as an invalid date, with the argument as it
    was given, and the run exits with status 255 without calling Jira; the
    end date is treated the same once the start date is valid. *)
Theorem not_a_calendar_date_is_reported
        (argparse : list string -> M namespace) (prog : string) (args : list string)
        (jira_issues : list issue) (t0 : list event) (ns : namespace) (s e : string)
        (ys ms ds ye me de : Z) :
  Z.of_nat (List.length (prog :: args)) = 5 \/ Z.of_nat (List.length (prog :: args)) = 6 ->
  argparse args = (t0, inr ns) -> startdate ns = Some s -> enddate ns = Some e ->
  date_of_string s = Some (ys, ms, ds) -> date_of_string e = Some (ye, me, de) ->
  (check_date ys ms ds = false ->
   run argparse prog args jira_issues = ((t0 ++ [Stdout (ErrorStartDate s)])%list, 255))
  /\ (check_date ys ms ds = true -> check_date ye me de = false ->
      run argparse prog args jira_issues = ((t0 ++ [Stdout (ErrorEndDate e)])%list, 255)).
Proof.
  intros Hargc Hap Hs He Hds Hde.
  pose proof (DateFacts.shape_of_date s _ _ _ Hds) as S1.
  pose proof (DateFacts.shape_of_date e _ _ _ Hde) as S2.
  rewrite match_date_shape_prefix in S1, S2.
  assert (P1 : starts_with_date s = true) by (unfold ret in S1; congruence).
  assert (P2 : starts_with_date e = true) by (unfold ret in S2; congruence).
  pose proof (parse_args_shapes _ _ _ _ _ _ _ Hargc Hap Hs He) as Hp.
  rewrite P1, P2 in Hp. cbv beta iota delta [negb] in Hp.
  split.
  - intros C1. apply (run_exit _ _ _ _ _ (-1)). rewrite Hp.
    rewrite (ArgumentFacts.strptime_not_a_date s " 00:00:01" ys ms ds Hds C1). reflexivity.
  - intros C1 C2. apply (run_exit _ _ _ _ _ (-1)). rewrite Hp.
    rewrite (DateFacts.strptime_date s " 00:00:01" ys ms ds 0 0 1 Hds C1)
      by (intros; reflexivity).
    rewrite (ArgumentFacts.strptime_not_a_date e " 23:59:59" ye me de Hde C2). reflexivity.
Qed.

Lemma not_a_calendar_date_is_reported_witness :
  run argparse_simple "hours" ["-startdate"; "2023-02-29"; "-enddate"; "2023-03-31"]
      [one_issue [worked "Greg Thain" 3600]]
  = (([] ++ [Stdout (ErrorStartDate "2023-02-29")])%list, 255).
Proof.
  apply (proj1 (not_a_calendar_date_is_reported argparse_simple "hours"
           ["-startdate"; "2023-02-29"; "-enddate"; "2023-03-31"]
           [one_issue [worked "Greg Thain" 3600]] []
           {| startdate := Some "2023-02-29"; enddate := Some "2023-03-31";
              detailed := false |}
           "2023-02-29" "2023-03-31" 2023 2 29 2023 3 31
           (or_introl eq_refl) eq_refl eq_refl eq_refl eq_refl eq_refl)).
  reflexivity.
Defined.

(** ** The loops: what the hours are *)




(** ** The loops: what is printed and asked *)

Lemma detailed_lines_off header detail a ws :
  existsb (counted a) ws = false -> detailed_lines header detail a ws = [].
Proof. unfold detailed_lines. now intros ->. Qed.







(** ** Windows that hold nothing *)

Lemma lex_trans (x : list Z) : forall y z, lex x y = Lt -> lex y z = Lt -> lex x z = Lt.
Proof.
  induction x as [|a x IH]; intros [|b y] [|c z]; simpl; try discriminate; auto.
  destruct (Z.compare_spec a b) as [Hab|Hab|Hab]; try discriminate;
    destruct (Z.compare_spec b c) as [Hbc|Hbc|Hbc]; try discriminate; intros H1 H2.
  - subst. rewrite Z.compare_refl. eauto.
  - subst. now apply Z.compare_lt_iff in Hbc as ->.
  - subst. now apply Z.compare_lt_iff in Hab as ->.
  - assert (Hac : a < c) by lia. now apply Z.compare_lt_iff in Hac as ->.
Qed.

Lemma steps_outside a ws : forall d,
  (forall w, In w ws -> well_formed w /\ counted a w = false) -> steps a ws d = inr d.
Proof.
  induction ws as [|w ws IH]; intros d H; simpl; [reflexivity|].
  destruct (H w (or_introl eq_refl)) as [Hwf Hc].
  rewrite (step_outside a w d Hc Hwf). apply IH. intros w' Hw'. apply H. now right.
Qed.

(** X8: [parse_args] does not compare the two dates, and a window whose
    end is not after its start holds no datetime: whatever well-formed work
    items Jira returns, none is credited and the loops end with the hours
    they started with. *)
Theorem inverted_window_counts_nothing (a : arguments) (jira_issues : list issue) (d : dict) :
  DateTime.compare (start_datetime a) (end_datetime a) <> Lt ->
  (forall w, In w (all_items jira_issues) -> well_formed w) ->
  (forall t, inside a t = false)
  /\ snd (for_each (log_issue a) jira_issues d) = inr d.
Proof.
  intros Hinv Hwf.
  assert (Hin : forall t, inside a t = false).
  { intros t. unfold inside, DateTime.compare in *.
    destruct (lex (fields (start_datetime a)) (fields t)) eqn:E1; try reflexivity.
    destruct (lex (fields t) (fields (end_datetime a))) eqn:E2; try reflexivity.
    exfalso. apply Hinv. eapply lex_trans; eassumption. }
  split; [exact Hin|].
  rewrite for_each_log_issue_steps. apply steps_outside.
  intros w Hw. split; [apply Hwf, Hw|].
  unfold counted. destruct (work_datetime w); [reflexivity | apply Hin].
Qed.

Lemma inverted_window_counts_nothing_witness :
  (forall t, inside {| start_datetime := DateTime.mk 2023 1 31 0 0 1 0;
                       end_datetime := DateTime.mk 2023 1 1 23 59 59 0;
                       arg_detailed := false |} t = false)
  /\ snd (for_each (log_issue {| start_datetime := DateTime.mk 2023 1 31 0 0 1 0;
                                end_datetime := DateTime.mk 2023 1 1 23 59 59 0;
                                arg_detailed := false |})
                  [one_issue [worked "Greg Thain" 3600]] developer_hours_init)
     = inr developer_hours_init.
Proof.
  apply (inverted_window_counts_nothing
           {| start_datetime := DateTime.mk 2023 1 31 0 0 1 0;
              end_datetime := DateTime.mk 2023 1 1 23 59 59 0;
              arg_detailed := false |}
           [one_issue [worked "Greg Thain" 3600]] developer_hours_init).
  - vm_compute. discriminate.
  - intros w [<- | []]. exists (DateTime.mk 2023 1 15 10 0 0 0). vm_compute. reflexivity.
Defined.

Lemma issue_events_outside a i :
  (forall w, In w (issue_items i) -> counted a w = false) ->
  issue_events a i = worklog_calls i.
Proof.
  intros H. unfold issue_events, worklog_calls, subtask_events, issue_items in *.
  assert (H1 : existsb (counted a) (issue_worklog i) = false).
  { apply Bool.not_true_is_false. intros E. apply existsb_exists in E.
    destruct E as (w & Hw & Hc). rewrite H in Hc; [discriminate|].
    apply in_or_app. now left. }
  rewrite (detailed_lines_off _ _ _ _ H1).
  replace (if arg_detailed a then [] else @nil event) with (@nil event)
    by (destruct (arg_detailed a); reflexivity).
  cbn [app]. f_equal.
  assert (H2 : forall t, In t (subtasks i) -> existsb (counted a) (subtask_worklog t) = false).
  { intros t Ht. apply Bool.not_true_is_false. intros E. apply existsb_exists in E.
    destruct E as (w & Hw & Hc). rewrite H in Hc; [discriminate|].
    apply in_or_app. right. apply in_flat_map. eauto. }
  clear H H1. induction (subtasks i) as [|t ts IH]; [reflexivity|].
  cbn [flat_map map app]. rewrite (detailed_lines_off _ _ _ _ (H2 t (or_introl eq_refl))).
  replace (if arg_detailed a then [] else @nil event) with (@nil event)
    by (destruct (arg_detailed a); reflexivity).
  f_equal. apply IH. intros t' Ht'. apply H2. now right.
Qed.

(** X9: when every work item is well formed and none is in the window (or
    Jira returns no work item at all), the run asks for each work log,
    prints no header and no detail in either mode, and reports the int 0 for
    every developer, a total of 0 hours out of 360 and 0 percent, with
    status 0. *)
Theorem nothing_in_window_reports_zero
        (argparse : list string -> M namespace) (prog : string) (args : list string)
        (jira_issues : list issue) (t0 : list event) (a : arguments) :
  parse_args argparse prog args = (t0, inr a) ->
  (forall w, In w (all_items jira_issues) -> well_formed w /\ counted a w = false) ->
  run argparse prog args jira_issues
  = ((t0 ++ JiraConnect :: JiraSearchIssues :: flat_map worklog_calls jira_issues
         ++ [Stdout (Between (strftime_date (start_datetime a))
                             (strftime_date (end_datetime a)));
             Stdout (DeveloperLogged "Mark Coatsworth" (PyInt 0));
             Stdout (DeveloperLogged "Jaime Frey" (PyInt 0));
             Stdout (DeveloperLogged "John (TJ) Knoeller" (PyInt 0));
             Stdout (DeveloperLogged "Todd L Miller" (PyInt 0));
             Stdout (DeveloperLogged "Zach Miller" (PyInt 0));
             Stdout (DeveloperLogged "Jason Patton" (PyInt 0));
             Stdout (DeveloperLogged "Todd Tannenbaum" (PyInt 0));
             Stdout (DeveloperLogged "Greg Thain" (PyInt 0));
             Stdout (DeveloperLogged "Tim Theisen" (PyInt 0));
             Stdout (TotalHoursLogged (PyInt 0));
             Stdout (TotalDeveloperHours 360);
             Stdout (PercentEffort 0)])%list, 0).
Proof.
  intros Hp H.
  assert (Hc : clean a developer_hours_init (all_items jira_issues)).
  { intros w Hw. destruct (H w Hw) as [Hwf Hn]. split; [exact Hwf|]. congruence. }
  assert (Ht : tally a (all_items jira_issues) developer_hours_init = developer_hours_init).
  { pose proof (steps_clean _ _ _ Hc) as E. rewrite (steps_outside _ _ _ H) in E. congruence. }
  assert (He : flat_map (issue_events a) jira_issues = flat_map worklog_calls jira_issues).
  { assert (Hi : forall i, In i jira_issues ->
                       forall w, In w (issue_items i) -> counted a w = false).
    { intros i Hi w Hw. apply H. unfold all_items. apply in_flat_map. eauto. }
    clear - Hi. induction jira_issues as [|i l IH]; [reflexivity|].
    cbn [flat_map]. rewrite (issue_events_outside a i (Hi i (or_introl eq_refl))).
    f_equal. apply IH. intros i' Hi'. apply Hi. now right. }
  assert (Hz : percent_effort (grand_total developer_hours_init) developer_hours_init = inr 0)
    by (vm_compute; reflexivity).
  unfold run. rewrite (run_clean _ _ _ _ _ _ Hp Hc). cbv zeta. rewrite Ht, He, Hz.
  unfold report_events. rewrite Hz. reflexivity.
Qed.

Lemma nothing_in_window_reports_zero_witness :
  run argparse_simple "hours" ["-startdate"; "2024-02-29"; "-enddate"; "2024-03-31"]
      [one_issue [worked "Greg Thain" 3600]; one_issue []]
  = (([] ++ JiraConnect :: JiraSearchIssues
         :: flat_map worklog_calls [one_issue [worked "Greg Thain" 3600]; one_issue []]
         ++ [Stdout (Between
                       (strftime_date (start_datetime
                          {| start_datetime := DateTime.mk 2024 2 29 0 0 1 0;
                             end_datetime := DateTime.mk 2024 3 31 23 59 59 0;
                             arg_detailed := false |}))
                       (strftime_date (end_datetime
                          {| start_datetime := DateTime.mk 2024 2 29 0 0 1 0;
                             end_datetime := DateTime.mk 2024 3 31 23 59 59 0;
                             arg_detailed := false |})));
             Stdout (DeveloperLogged "Mark Coatsworth" (PyInt 0));
             Stdout (DeveloperLogged "Jaime Frey" (PyInt 0));
             Stdout (DeveloperLogged "John (TJ) Knoeller" (PyInt 0));
             Stdout (DeveloperLogged "Todd L Miller" (PyInt 0));
             Stdout (DeveloperLogged "Zach Miller" (PyInt 0));
             Stdout (DeveloperLogged "Jason Patton" (PyInt 0));
             Stdout (DeveloperLogged "Todd Tannenbaum" (PyInt 0));
             Stdout (DeveloperLogged "Greg Thain" (PyInt 0));
             Stdout (DeveloperLogged "Tim Theisen" (PyInt 0));
             Stdout (TotalHoursLogged (PyInt 0));
             Stdout (TotalDeveloperHours 360);
             Stdout (PercentEffort 0)])%list, 0).
Proof.
  apply (nothing_in_window_reports_zero argparse_simple "hours"
           ["-startdate"; "2024-02-29"; "-enddate"; "2024-03-31"]
           [one_issue [worked "Greg Thain" 3600]; one_issue []] []
           {| start_datetime := DateTime.mk 2024 2 29 0 0 1 0;
              end_datetime := DateTime.mk 2024 3 31 23 59 59 0;
              arg_detailed := false |}).
  - vm_compute. reflexivity.
  - intros w [<- | []]. split.
    + exists (DateTime.mk 2023 1 15 10 0 0 0). vm_compute. reflexivity.
    + vm_compute. reflexivity.
Defined.

(** ** The timestamps that [strptime] converts *)

Module StampFacts.
Import Re ReSpec ReFacts Strptime Formats StrptimeFacts.





End StampFacts.


(** ** [parse_args]: what may follow a date *)

Module SpaceFacts.
Import Re ReSpec ReFacts Strptime Formats StrptimeFacts.

Lemma white_all_in (s : string) : white s = true <-> all_in Space s.
Proof.
  unfold white. induction s as [|a s IH]; simpl; [tauto|].
  rewrite andb_true_iff, IH. tauto.
Qed.

Lemma all_in_app (p : cls) (a b : string) : all_in p (a ++ b) <-> all_in p a /\ all_in p b.
Proof. induction a as [|ch a IH]; simpl; tauto. Qed.

(** [p*] takes the whole run when what follows is not in [p] and the
    rest of the pattern matches there. *)
Lemma star_longest {R : Type} (p : cls) (ws : string) :
  forall (x : string) (k : string -> string -> option R) (res : R),
    all_in p ws ->
    match x with String ch _ => mem p ch = false | EmptyString => True end ->
    k ws x = Some res -> star p (ws ++ x) k = Some res.
Proof.
  induction ws as [|a ws IH]; intros x k res Hws Hx Hk.
  - simpl. destruct x as [|ch x]; simpl; [exact Hk|]. now rewrite Hx.
  - destruct Hws as [Ha Hws]. cbn [append star]. rewrite Ha.
    rewrite (IH x (fun m r => k (String a m) r) res Hws Hx Hk). reflexivity.
Qed.

Lemma run_spaces (r' : regex) (ws x : string) (c : captures) res :
  ws <> "" -> all_in Space ws ->
  match x with String ch _ => is_space ch = false | EmptyString => True end ->
  run r' x c = Some res ->
  run (Cat (Plus Space) r') (ws ++ x) c = Some res.
Proof.
  intros Hne Hws Hx Hr. rewrite run_cat.
  destruct ws as [|a ws]; [congruence|]. destruct Hws as [Ha Hws].
  cbn [append rmatch]. rewrite Ha.
  apply (star_longest Space ws x (fun _ r => run r' r c) res Hws Hx Hr).
Qed.

(** A valid date, then the rest of a text of the format of the
    arguments. *)
Lemma strptime_date_then (s tail sH sM sS : string) (y m d h mi sec : Z) :
  date_of_string s = Some (y, m, d) -> DateTime.check_date y m d = true ->
  (forall c, run (Cat (Plus Space)
                  (Cat re_H (Cat (chr ":") (Cat re_M (Cat (chr ":") (Cat re_S Eps))))))
                 tail c
             = Some (("S"%char, sS) :: ("M"%char, sM) :: ("H"%char, sH) :: c, "")) ->
  int sH = h -> int sM = mi -> int sS = sec ->
  DateTime.check_time h mi sec 0 = true ->
  strptime (s ++ tail) "%Y-%m-%d %H:%M:%S" = inr (DateTime.mk y m d h mi sec 0).
Proof.
  intros Hs Hd Ht Hh Hmi Hsec Hc.
  destruct s as [|y1 [|y2 [|y3 [|y4 [|h1 [|m1 [|m2 [|h2 [|d1 [|d2 [|? ?]]]]]]]]]]];
    try discriminate.
  unfold date_of_string in Hs.
  destruct (forallb is_digit [y1; y2; y3; y4; m1; m2; d1; d2] && exact "-" h1
            && exact "-" h2) eqn:E; [|discriminate].
  injection Hs as Hy Hm Hdd.
  apply andb_true_iff in E. destruct E as [E E2].
  apply andb_true_iff in E. destruct E as [E E1].
  simpl in E. repeat (apply andb_true_iff in E; destruct E as [? E]).
  apply N.eqb_eq, code_inj in E1, E2. subst h1 h2.
  unfold DateTime.check_date in Hd.
  repeat (apply andb_true_iff in Hd; destruct Hd as [Hd ?]).
  pose proof (DateFacts.days_in_month_le y m).
  rewrite (strptime_run _ _ _ pattern_argument).
  unfold argument_regex, date_time.
  change (String y1 (String y2 (String y3 (String y4 (String "-" (String m1 (String m2
           (String "-" (String d1 (String d2 ""))))))))) ++ tail)
    with (String y1 (String y2 (String y3 (String y4 "")))
          ++ String "-" (String m1 (String m2 "")
          ++ String "-" (String d1 (String d2 "") ++ tail))).
  erewrite run_date;
    [ | apply DateFacts.matches_year; assumption
      | apply DateFacts.matches_month; [assumption | assumption | lia]
      | apply DateFacts.matches_day; [assumption | assumption | lia]
      | reflexivity | reflexivity
      | apply head_spaces
      | apply Ht ].
  unfold datetime_of, field, fraction. simpl group. cbv iota.
  rewrite Hy, Hm, Hdd, Hh, Hmi, Hsec. unfold DateTime.make.
  unfold DateTime.check_date.
  repeat match goal with H : (_ <=? _) = true |- _ => rewrite H; clear H end.
  rewrite Hc. reflexivity.
Qed.

Lemma starts_with_date_append (s rest : string) (y m d : Z) :
  date_of_string s = Some (y, m, d) -> starts_with_date (s ++ rest) = true.
Proof.
  intros Hs.
  destruct s as [|y1 [|y2 [|y3 [|y4 [|h1 [|m1 [|m2 [|h2 [|d1 [|d2 [|? ?]]]]]]]]]]];
    try discriminate.
  unfold date_of_string in Hs.
  destruct (forallb is_digit [y1; y2; y3; y4; m1; m2; d1; d2] && exact "-" h1
            && exact "-" h2) eqn:E; [|discriminate].
  apply andb_true_iff in E. destruct E as [E E2].
  apply andb_true_iff in E. destruct E as [E E1].
  simpl in E. repeat (apply andb_true_iff in E; destruct E as [? E]).
  simpl.
  repeat match goal with H : is_digit _ = true |- _ => rewrite H; clear H end.
  rewrite E1, E2. reflexivity.
Qed.

(** A valid date, white space, and a time of the script. *)
Lemma strptime_date_white (s ws sH sM sS : string) (y m d h mi sec : Z) :
  date_of_string s = Some (y, m, d) -> DateTime.check_date y m d = true ->
  white ws = true ->
  match sH with String ch _ => is_space ch = false | EmptyString => False end ->
  (forall c, run (Cat re_H (Cat (chr ":") (Cat re_M (Cat (chr ":") (Cat re_S Eps)))))
                 (sH ++ String ":" (sM ++ String ":" sS)) c
             = Some (("S"%char, sS) :: ("M"%char, sM) :: ("H"%char, sH) :: c, "")) ->
  int sH = h -> int sM = mi -> int sS = sec ->
  DateTime.check_time h mi sec 0 = true ->
  strptime ((s ++ ws) ++ String " " (sH ++ String ":" (sM ++ String ":" sS)))
           "%Y-%m-%d %H:%M:%S"
  = inr (DateTime.mk y m d h mi sec 0).
Proof.
  intros Hs Hd Hw Hhead Ht Hh Hmi Hsec Hc.
  rewrite append_assoc.
  apply (strptime_date_then s _ sH sM sS y m d h mi sec Hs Hd); auto.
  intros c.
  change (String " " (sH ++ String ":" (sM ++ String ":" sS)))
    with (" " ++ (sH ++ String ":" (sM ++ String ":" sS))).
  rewrite <- append_assoc.
  apply run_spaces.
  - destruct ws; discriminate.
  - apply all_in_app. split; [apply white_all_in, Hw | simpl; auto].
  - destruct sH as [|ch sH]; [destruct Hhead | exact Hhead].
  - apply Ht.
Qed.

End SpaceFacts.

(** X11: the test of the format looks at the first ten characters only
    and the space of the format of [strptime] stands for any run of white
    space, so a date of the calendar followed by any white space (spaces,
    tabs, line ends) is accepted as a date argument: [parse_args] returns
    the window of the two dates as it does for the dates alone. *)
Theorem white_space_after_a_date_is_accepted
        (argparse : list string -> M namespace) (prog : string) (args : list string)
        (t0 : list event) (ns : namespace) (s ws e we : string) (ys ms ds ye me de : Z) :
  Z.of_nat (List.length (prog :: args)) = 5 \/ Z.of_nat (List.length (prog :: args)) = 6 ->
  argparse args = (t0, inr ns) ->
  startdate ns = Some (s ++ ws) -> enddate ns = Some (e ++ we) ->
  date_of_string s = Some (ys, ms, ds) -> check_date ys ms ds = true ->
  date_of_string e = Some (ye, me, de) -> check_date ye me de = true ->
  white ws = true -> white we = true ->
  parse_args argparse prog args
  = (t0, inr {| start_datetime := DateTime.mk ys ms ds 0 0 1 0;
                end_datetime := DateTime.mk ye me de 23 59 59 0;
                arg_detailed := detailed ns |}).
Proof.
  intros Hargc Hap Hs He Hds Hcs Hde Hce Hws Hwe.
  rewrite (parse_args_shapes _ _ _ _ _ _ _ Hargc Hap Hs He).
  rewrite (SpaceFacts.starts_with_date_append s ws _ _ _ Hds),
    (SpaceFacts.starts_with_date_append e we _ _ _ Hde).
  cbv beta iota delta [negb].
  pose proof (SpaceFacts.strptime_date_white s ws "00" "00" "01" ys ms ds 0 0 1 Hds Hcs Hws
                eq_refl (fun c => eq_refl) eq_refl eq_refl eq_refl eq_refl) as P1.
  pose proof (SpaceFacts.strptime_date_white e we "23" "59" "59" ye me de 23 59 59 Hde Hce Hwe
                eq_refl (fun c => eq_refl) eq_refl eq_refl eq_refl eq_refl) as P2.
  cbn [append] in P1, P2. rewrite P1, bind_ret, P2, bind_ret.
  simpl. rewrite app_nil_r. reflexivity.
Qed.

Lemma white_space_after_a_date_is_accepted_witness :
  parse_args argparse_simple "hours"
             ["-startdate"; String "2" (String "0" (String "2" (String "4" (String "-"
                (String "0" (String "2" (String "-" (String "2" (String "9"
                (String (ascii_of_N 9) (String " " ""))))))))))); "-enddate"; "2024-03-31 "]
  = ([], inr {| start_datetime := DateTime.mk 2024 2 29 0 0 1 0;
                end_datetime := DateTime.mk 2024 3 31 23 59 59 0;
                arg_detailed := false |}).
Proof.
  apply (white_space_after_a_date_is_accepted argparse_simple "hours"
           ["-startdate"; String "2" (String "0" (String "2" (String "4" (String "-"
              (String "0" (String "2" (String "-" (String "2" (String "9"
              (String (ascii_of_N 9) (String " " ""))))))))))); "-enddate"; "2024-03-31 "]
           []
           {| startdate := Some ("2024-02-29" ++ String (ascii_of_N 9) (String " " ""));
              enddate := Some ("2024-03-31" ++ " "); detailed := false |}
           "2024-02-29" (String (ascii_of_N 9) (String " " "")) "2024-03-31" " "
           2024 2 29 2024 3 31).
  - left. reflexivity.
  - reflexivity.
  - reflexivity.
  - reflexivity.
  - reflexivity.
  - reflexivity.
  - reflexivity.
  - reflexivity.
  - reflexivity.
  - reflexivity.
Defined.

(** ** [parse_args]: what may not follow a date *)

Module TextFacts.
Import Re ReSpec ReFacts Strptime Formats StrptimeFacts.

Lemma spaceless_app (a b : string) : spaceless (a ++ b) = spaceless a && spaceless b.
Proof.
  unfold spaceless. induction a as [|ch a IH]; simpl; [reflexivity|].
  now rewrite IH, andb_assoc.
Qed.

Lemma white_app (a b : string) : white (a ++ b) = white a && white b.
Proof.
  unfold white. induction a as [|ch a IH]; simpl; [reflexivity|].
  now rewrite IH, andb_assoc.
Qed.

Lemma digit_not_space (ch : ascii) : is_digit ch = true -> is_space ch = false.
Proof.
  intros H. destruct (is_space ch) eqn:E; [|reflexivity].
  apply space_not_digit in E. congruence.
Qed.

Ltac spaceless_chars :=
  simpl mem in *; unfold spaceless; simpl;
  repeat match goal with
         | H : range ?a ?b ?ch = true |- _ =>
             apply (range_is_digit a b ch eq_refl eq_refl) in H
         | H : lit ?a ?ch = true |- _ => apply (lit_exact a ch eq_refl) in H; subst ch
         | H : is_digit ?ch = true |- _ => apply digit_not_space in H; rewrite H; clear H
         end;
  reflexivity.

Lemma hour_spaceless m c c' : matches re_H m c c' -> spaceless m = true.
Proof. unfold re_H, chr, rng, digit. simpl. intros H. split_matches; spaceless_chars. Qed.

Lemma minute_spaceless m c c' : matches re_M m c c' -> spaceless m = true.
Proof. unfold re_M, chr, rng, digit. simpl. intros H. split_matches; spaceless_chars. Qed.

Lemma second_spaceless m c c' : matches re_S m c c' -> spaceless m = true.
Proof. unfold re_S, chr, rng, digit. simpl. intros H. split_matches; spaceless_chars. Qed.

(** A text of the time of the format has no white space. *)
Lemma time_spaceless m c c' :
  matches (Cat re_H (Cat (chr ":") (Cat re_M (Cat (chr ":") (Cat re_S Eps))))) m c c' ->
  spaceless m = true.
Proof.
  intros H.
  apply matches_cat in H. destruct H as (mH & ? & cH & -> & HH & H).
  apply matches_cat in H. destruct H as (? & ? & ? & -> & K1 & H).
  apply matches_chr in K1. destruct K1 as (c1 & -> & L1 & ->).
  apply matches_cat in H. destruct H as (mM & ? & cM & -> & HM & H).
  apply matches_cat in H. destruct H as (? & ? & ? & -> & K2 & H).
  apply matches_chr in K2. destruct K2 as (c2 & -> & L2 & ->).
  apply matches_cat in H. destruct H as (mS & ? & cS & -> & HS & H).
  apply matches_eps in H. destruct H as [-> _].
  apply (lit_exact ":" c1 eq_refl) in L1. apply (lit_exact ":" c2 eq_refl) in L2. subst.
  rewrite !spaceless_app, (hour_spaceless _ _ _ HH), (minute_spaceless _ _ _ HM),
    (second_spaceless _ _ _ HS).
  reflexivity.
Qed.

Lemma append_split (a : string) : forall b c d,
  a ++ b = c ++ d ->
  (exists x, c = a ++ x /\ b = x ++ d) \/ (exists x, a = c ++ x /\ d = x ++ b).
Proof.
  induction a as [|ch a IH]; intros b [|ch' c] d E; simpl in E.
  - left. exists "". auto.
  - left. exists (String ch' c). auto.
  - right. exists (String ch a). auto.
  - injection E as -> E. destruct (IH _ _ _ E) as [(x & -> & ->) | (x & -> & ->)];
      [left | right]; exists x; auto.
Qed.

(** The end of a text that ends with a space has a space. *)
Lemma suffix_has_space (rest : string) : forall w x,
  rest ++ " " = w ++ x -> x <> "" -> spaceless x = false.
Proof.
  induction rest as [|a rest IH]; intros [|b w] x E Hx; simpl in E.
  - now subst x.
  - injection E as _ E. destruct w; destruct x; simpl in E; congruence.
  - subst x. change (String a (rest ++ " ")) with (String a rest ++ " ").
    rewrite spaceless_app. apply andb_false_r.
  - injection E as _ E. eapply IH; eassumption.
Qed.

(** In a match of the format of the arguments against a text that
    starts with a date of ten characters, what follows the date is white
    space and then a text without white space. *)
Lemma argument_rest (y1 y2 y3 y4 m1 m2 d1 d2 : ascii) (rest : string) (found : captures) :
  is_digit m2 = true -> is_digit d2 = true ->
  run argument_regex
      (String y1 (String y2 (String y3 (String y4 (String "-" (String m1 (String m2
        (String "-" (String d1 (String d2 rest))))))))))
      [] = Some (found, "") ->
  exists ws tt, rest = ws ++ tt /\ ws <> "" /\ white ws = true /\ spaceless tt = true.
Proof.
  intros Dm2 Dd2 H. apply run_sound in H. destruct H as (m & E & H).
  rewrite append_empty_r in E. subst m.
  unfold argument_regex, date_time in H.
  apply matches_cat in H. destruct H as (mY & r1 & cY & E & HY & H).
  pose proof (ArgumentFacts.year_text _ _ _ HY) as (a1 & a2 & a3 & a4 & ->).
  clear HY.
  apply matches_cat in H. destruct H as (s1 & r2 & c1 & -> & K & H).
  apply matches_chr in K. destruct K as (h1 & -> & _ & ->).
  apply matches_cat in H. destruct H as (mm & r3 & cm & -> & Hm & H).
  apply matches_cat in H. destruct H as (s2 & r4 & c2 & -> & K & H).
  apply matches_chr in K. destruct K as (h2 & -> & L2 & ->).
  apply matches_cat in H. destruct H as (md & r5 & cd & -> & Hd & H).
  apply matches_cat in H. destruct H as (ws & r6 & cw & -> & Hw & H).
  destruct Hw as [[Hne Hws] ->].
  simpl in E. injection E as E1 E2 E3 E4 _ E. subst a1 a2 a3 a4.
  destruct (ArgumentFacts.month_text _ _ _ Hm) as [(a & ->) | (a & b & ->)]; simpl in E.
  - injection E as Ea Eb _. subst a h2.
    apply (lit_not_digit "-" m2 eq_refl) in L2. congruence.
  - injection E as Ea Eb _ E. subst a b.
    destruct (ArgumentFacts.day_text _ _ _ Hd) as [(a & ->) | (a & b & ->)]; simpl in E.
    + injection E as Ea E. subst a. destruct ws as [|w ws]; [congruence|].
      simpl in E. injection E as Ew _. subst w. destruct Hws as [Hw _].
      apply space_not_digit in Hw. congruence.
    + injection E as Ea Eb E. subst a b.
      exists ws, r6. split; [exact E|]. split; [exact Hne|].
      split; [apply SpaceFacts.white_all_in, Hws | apply (time_spaceless _ _ _ H)].
Qed.

(** A text of the shape of a date followed by anything but white
    space is not converted. *)
Lemma strptime_text_after (s rest time : string) (y m d : Z) :
  date_of_string s = Some (y, m, d) -> white rest = false ->
  strptime ((s ++ rest) ++ String " " time) "%Y-%m-%d %H:%M:%S" = inl ValueError.
Proof.
  intros Hs Hr.
  destruct (strptime ((s ++ rest) ++ String " " time) "%Y-%m-%d %H:%M:%S") as [e|t] eqn:E.
  - apply strptime_error in E. now subst.
  - exfalso. apply (strptime_inv _ _ _ _ pattern_argument) in E.
    destruct E as (found & Hrun & _).
    destruct s as [|y1 [|y2 [|y3 [|y4 [|h1 [|m1 [|m2 [|h2 [|d1 [|d2 [|? ?]]]]]]]]]]];
      try discriminate.
    unfold date_of_string in Hs.
    destruct (forallb is_digit [y1; y2; y3; y4; m1; m2; d1; d2] && exact "-" h1
              && exact "-" h2) eqn:B; [|discriminate].
    apply andb_true_iff in B. destruct B as [B E2].
    apply andb_true_iff in B. destruct B as [B E1].
    simpl in B. repeat (apply andb_true_iff in B; destruct B as [? B]).
    apply N.eqb_eq, code_inj in E1, E2. subst h1 h2.
    cbn [append] in Hrun.
    assert (Dm2 : is_digit m2 = true) by assumption.
    assert (Dd2 : is_digit d2 = true) by assumption.
    destruct (argument_rest y1 y2 y3 y4 m1 m2 d1 d2 (rest ++ String " " time) found
                Dm2 Dd2 Hrun) as (ws & tt & E & Hne & Hws & Htt).
    change (rest ++ String " " time) with (rest ++ (" " ++ time)) in E.
    rewrite <- append_assoc in E.
    destruct (append_split _ _ _ _ E) as [(x & -> & _) | (x & Ex & ->)].
    + rewrite !white_app in Hws. rewrite Hr in Hws. discriminate.
    + destruct x as [|ch x].
      * rewrite append_empty_r in Ex. subst ws.
        rewrite white_app, Hr in Hws. discriminate.
      * rewrite spaceless_app in Htt. apply andb_true_iff in Htt. destruct Htt as [Htt _].
        rewrite (suffix_has_space rest ws (String ch x) Ex) in Htt; discriminate.
Qed.

End TextFacts.

(** X12: a date argument that starts with the shape of a date and goes on
    with anything but white space passes the test of the format and is then
    refused by [strptime]: the run prints the invalid-date error (not the
    format error) with the argument as given on standard output and exits
    with status 255 without calling Jira; the start date is reported before
    the end date. *)
Theorem text_after_a_date_is_an_invalid_date
        (argparse : list string -> M namespace) (prog : string) (args : list string)
        (jira_issues : list issue) (t0 : list event) (ns : namespace)
        (s rs e re : string) (ys ms ds ye me de : Z) :
  Z.of_nat (List.length (prog :: args)) = 5 \/ Z.of_nat (List.length (prog :: args)) = 6 ->
  argparse args = (t0, inr ns) ->
  startdate ns = Some (s ++ rs) -> enddate ns = Some (e ++ re) ->
  date_of_string s = Some (ys, ms, ds) -> date_of_string e = Some (ye, me, de) ->
  (white rs = false ->
   run argparse prog args jira_issues
   = ((t0 ++ [Stdout (ErrorStartDate (s ++ rs))])%list, 255))
  /\ (white rs = true -> check_date ys ms ds = true -> white re = false ->
      run argparse prog args jira_issues
      = ((t0 ++ [Stdout (ErrorEndDate (e ++ re))])%list, 255)).
Proof.
  intros Hargc Hap Hs He Hds Hde.
  pose proof (parse_args_shapes _ _ _ _ _ _ _ Hargc Hap Hs He) as Hp.
  rewrite (SpaceFacts.starts_with_date_append s rs _ _ _ Hds),
    (SpaceFacts.starts_with_date_append e re _ _ _ Hde) in Hp.
  cbv beta iota delta [negb] in Hp.
  split.
  - intros W1. apply (run_exit _ _ _ _ _ (-1)). rewrite Hp.
    pose proof (TextFacts.strptime_text_after s rs "00:00:01" ys ms ds Hds W1) as P1.
    rewrite P1. reflexivity.
  - intros W1 C1 W2. apply (run_exit _ _ _ _ _ (-1)). rewrite Hp.
    pose proof (SpaceFacts.strptime_date_white s rs "00" "00" "01" ys ms ds 0 0 1 Hds C1 W1
                  eq_refl (fun c => eq_refl) eq_refl eq_refl eq_refl eq_refl) as P1.
    pose proof (TextFacts.strptime_text_after e re "23:59:59" ye me de Hde W2) as P2.
    cbn [append] in P1. rewrite P1, bind_ret, P2. reflexivity.
Qed.

Lemma text_after_a_date_is_an_invalid_date_witness :
  run argparse_simple "hours" ["-startdate"; "2023-01-01T08:00"; "-enddate"; "2023-01-31"]
      [one_issue [worked "Greg Thain" 3600]]
  = (([] ++ [Stdout (ErrorStartDate ("2023-01-01" ++ "T08:00"))])%list, 255).
Proof.
  apply (proj1 (text_after_a_date_is_an_invalid_date argparse_simple "hours"
           ["-startdate"; "2023-01-01T08:00"; "-enddate"; "2023-01-31"]
           [one_issue [worked "Greg Thain" 3600]] []
           {| startdate := Some ("2023-01-01" ++ "T08:00");
              enddate := Some ("2023-01-31" ++ ""); detailed := false |}
           "2023-01-01" "T08:00" "2023-01-31" "" 2023 1 1 2023 1 31
           (or_introl eq_refl) eq_refl eq_refl eq_refl eq_refl eq_refl)).
  reflexivity.
Defined.

(** ** The report: what the percentage is out of *)

Lemma step_keys a w d d' : step a w d = inr d' -> map fst d' = map fst d.
Proof.
  unfold step. destruct (work_datetime w) as [e|t]; [discriminate|].
  destruct (inside a t); [|congruence].
  destruct (getitem d (author_displayName w)) as [e|v] eqn:G; [discriminate|].
  intros E. assert (d' = setitem d (author_displayName w) (add v (hours_spent w)))
    by congruence. subst d'. apply keys_setitem. eauto.
Qed.

Lemma steps_keys a ws : forall d d', steps a ws d = inr d' -> map fst d' = map fst d.
Proof.
  induction ws as [|w ws IH]; intros d d' H; simpl in H; [congruence|].
  destruct (step a w d) as [e|d1] eqn:E; [discriminate|].
  rewrite (IH _ _ H). apply (step_keys _ _ _ _ E).
Qed.

(** X13: the loops never add or drop a developer, so whenever they end
    without exception the report is on the nine developers of the roster and
    the percentage is taken out of 360 hours, whatever the length of the
    window; the division by [len(developer_hours)*40] never raises
    [ZeroDivisionError]. *)
Theorem effort_is_out_of_360_hours (a : arguments) (jira_issues : list issue) (d : dict) :
  snd (for_each (log_issue a) jira_issues developer_hours_init) = inr d ->
  map fst d = map fst developer_hours_init
  /\ total_developer_hours d = 360
  /\ percent_effort (grand_total d) d <> inl ZeroDivisionError.
Proof.
  intros H. rewrite for_each_log_issue_steps in H. apply steps_keys in H.
  assert (L : List.length d = 9%nat).
  { rewrite <- (length_map fst d), H. reflexivity. }
  assert (T : total_developer_hours d = 360).
  { unfold total_developer_hours. rewrite L. reflexivity. }
  split; [exact H|]. split; [exact T|].
  unfold percent_effort. rewrite T. unfold truediv.
  change (is_zero (PyInt 360)) with false. cbv iota.
  destruct (mul (grand_total d) (PyInt 100)) as [n|x]; unfold round, float_round;
    match goal with
    | |- context [Prim2SF ?f] => destruct (Prim2SF f) as [| | |[] ? ?]
    end; discriminate.
Qed.

Lemma effort_is_out_of_360_hours_witness :
  map fst (tally (january false) [worked "Greg Thain" 32400] developer_hours_init)
  = map fst developer_hours_init
  /\ total_developer_hours (tally (january false) [worked "Greg Thain" 32400]
                                  developer_hours_init) = 360
  /\ percent_effort (grand_total (tally (january false) [worked "Greg Thain" 32400]
                                        developer_hours_init))
                    (tally (january false) [worked "Greg Thain" 32400] developer_hours_init)
     <> inl ZeroDivisionError.
Proof.
  apply (effort_is_out_of_360_hours (january false) [one_issue [worked "Greg Thain" 32400]]
           (tally (january false) [worked "Greg Thain" 32400] developer_hours_init)).
  vm_compute. reflexivity.
Defined.
